(** * TrackViz: GPS track visualisation (src/TrackViz.py)

    A shallow embedding of the two entry points of TrackViz.py,
    [load_and_plot_gps_track] and [plot_with_custom_settings], together
    with the properties stated about them.

    Modelling conventions.
    - Column names are [string]s of ASCII characters; [str.lower] and
      [str.strip] are written out on that alphabet.
    - A numpy array is a [list]; the slice and item assignments of the
      source are written out with Python's index normalisation, and raise
      the exception numpy raises.
    - A table holds numbers: float64 values are modelled by real numbers
      ([R]), and [np.radians], [np.sin] and [np.cos] are [x * PI / 180],
      [sin] and [cos].  Text cells are outside this model.  Where a
      statement is about NaN, the arithmetic of lines 61-65 is taken over
      numbers and NaN (module [Ieee]).
    - [pd.read_csv] is a parameter of the entry points: it gives the
      table a path holds, or the exception raised.  So is the answer of
      [ax.hist], which may raise.
    - Printing and plotting are recorded as a trace of events; an entry
      point yields its trace and either a raised exception or its return
      value ([None] is the value of a bare [return]). *)

From Stdlib Require Import String Ascii Bool Arith ZArith Lia List.
From Stdlib Require Import Reals Lra.
Import ListNotations.

Local Open Scope string_scope.
Local Open Scope list_scope.
Local Open Scope nat_scope.

(* ================================================================== *)
(** ** Python strings *)

Module PyStr.

(** [c.isupper()] on ASCII. *)
Definition is_upper (c : ascii) : bool :=
  let n := nat_of_ascii c in (65 <=? n) && (n <=? 90).

Definition lower_char (c : ascii) : ascii :=
  if is_upper c then ascii_of_nat (nat_of_ascii c + 32) else c.

(** [s.lower()] *)
Fixpoint lower (s : string) : string :=
  match s with
  | EmptyString => EmptyString
  | String c s' => String (lower_char c) (lower s')
  end.

(** [c.isspace()] on ASCII: tab, line feed, vertical tab, form feed,
    carriage return, the four separators 0x1c-0x1f, and space. *)
Definition is_space (c : ascii) : bool :=
  let n := nat_of_ascii c in
  ((9 <=? n) && (n <=? 13)) || ((28 <=? n) && (n <=? 31)) || (n =? 32).

Fixpoint lstrip (s : string) : string :=
  match s with
  | EmptyString => EmptyString
  | String c s' => if is_space c then lstrip s' else s
  end.

Fixpoint rstrip (s : string) : string :=
  match s with
  | EmptyString => EmptyString
  | String c s' =>
      match rstrip s' with
      | EmptyString => if is_space c then EmptyString else String c EmptyString
      | r => String c r
      end
  end.

(** [s.strip()] *)
Definition strip (s : string) : string := rstrip (lstrip s).

(** [needle in hay] *)
Fixpoint contains (needle hay : string) : bool :=
  prefix needle hay ||
  match hay with
  | EmptyString => false
  | String _ hay' => contains needle hay'
  end.

(** Truth value of [None] or a string, as tested by [all([...])]. *)
Definition truthy (o : option string) : bool :=
  match o with
  | None => false
  | Some s => negb (String.eqb s "")
  end.

End PyStr.

(* ================================================================== *)
(** ** Column resolution *)

Module Resolver.
Import PyStr.

(** The three loop variables [lat_col], [lon_col], [heading_col]. *)
Record mapping : Type := Mapping {
  lat_col : option string;
  lon_col : option string;
  heading_col : option string
}.

(** [lat_col = None; lon_col = None; heading_col = None] *)
Definition unresolved : mapping := Mapping None None None.

(** Body of the loop of [load_and_plot_gps_track] (lines 31-37). *)
Definition strict_step (m : mapping) (col : string) : mapping :=
  let col_lower := strip (lower col) in
  if contains "latitude" col_lower then
    Mapping (Some col) (lon_col m) (heading_col m)
  else if contains "longitude" col_lower || contains "long" col_lower then
    Mapping (lat_col m) (Some col) (heading_col m)
  else if contains "course" col_lower then
    Mapping (lat_col m) (lon_col m) (Some col)
  else m.

(** Body of the loop of [plot_with_custom_settings] (lines 113-119). *)
Definition permissive_step (m : mapping) (col : string) : mapping :=
  let col_lower := strip (lower col) in
  if contains "lat" col_lower then
    Mapping (Some col) (lon_col m) (heading_col m)
  else if contains "lon" col_lower || contains "long" col_lower then
    Mapping (lat_col m) (Some col) (heading_col m)
  else if contains "head" col_lower then
    Mapping (lat_col m) (lon_col m) (Some col)
  else m.

(** [for col in df.columns: ...] *)
Definition resolve_strict (columns : list string) : mapping :=
  fold_left strict_step columns unresolved.

Definition resolve_permissive (columns : list string) : mapping :=
  fold_left permissive_step columns unresolved.

(** [all([lat_col, lon_col, heading_col])] *)
Definition all_resolved (m : mapping) : bool :=
  truthy (lat_col m) && truthy (lon_col m) && truthy (heading_col m).

(** *** Categories, for stating what the loops compute *)

Inductive category : Type := Latitude | Longitude | Heading.

Definition category_eqb (a b : category) : bool :=
  match a, b with
  | Latitude, Latitude | Longitude, Longitude | Heading, Heading => true
  | _, _ => false
  end.

(** The branch of the strict [if]/[elif] chain a column name takes. *)
Definition strict_category (col : string) : option category :=
  let col_lower := strip (lower col) in
  if contains "latitude" col_lower then Some Latitude
  else if contains "longitude" col_lower || contains "long" col_lower
       then Some Longitude
  else if contains "course" col_lower then Some Heading
  else None.

Definition permissive_category (col : string) : option category :=
  let col_lower := strip (lower col) in
  if contains "lat" col_lower then Some Latitude
  else if contains "lon" col_lower || contains "long" col_lower
       then Some Longitude
  else if contains "head" col_lower then Some Heading
  else None.

Definition get (m : mapping) (c : category) : option string :=
  match c with
  | Latitude => lat_col m
  | Longitude => lon_col m
  | Heading => heading_col m
  end.

Definition matches (cat_of : string -> option category) (c : category)
    (col : string) : bool :=
  match cat_of col with
  | Some c' => category_eqb c c'
  | None => false
  end.

(** First and last element of a list satisfying a test. *)
Definition first_match (p : string -> bool) (l : list string) : option string :=
  find p l.

Definition last_match (p : string -> bool) (l : list string) : option string :=
  find p (rev l).

End Resolver.

(* ================================================================== *)
(** ** Exceptions *)

Inductive exn : Type :=
| LoadError (reason : string)   (* whatever [pd.read_csv] raised *)
| KeyError (key : option string)
| IndexError
| ValueError.

(* ================================================================== *)
(** ** numpy arrays *)

Module Np.

Section Array.
Context {A : Type}.

(** An integer index into an array of length [n]: a negative index
    counts from the end. *)
Definition norm_index (n : nat) (i : Z) : option nat :=
  let i' := if (i <? 0)%Z then (i + Z.of_nat n)%Z else i in
  if ((0 <=? i') && (i' <? Z.of_nat n))%Z then Some (Z.to_nat i') else None.

(** A slice bound: a negative bound counts from the end, and the result
    is clipped to [0, n]. *)
Definition clip_bound (n : nat) (b : Z) : nat :=
  Z.to_nat (if (b <? 0)%Z then Z.max 0 (b + Z.of_nat n)
            else Z.min b (Z.of_nat n)).

(** Bounds [lo, hi) of [a[start:stop]]; an omitted bound is [None]. *)
Definition slice_bounds (n : nat) (start stop : option Z) : nat * nat :=
  (match start with None => 0 | Some s => clip_bound n s end,
   match stop with None => n | Some s => clip_bound n s end).

(** [a[i]] *)
Definition getitem (a : list A) (i : Z) : exn + A :=
  match norm_index (length a) i with
  | None => inl IndexError
  | Some k =>
      match nth_error a k with
      | Some x => inr x
      | None => inl IndexError
      end
  end.

(** [a[i] = x] *)
Definition setitem (a : list A) (i : Z) (x : A) : exn + list A :=
  match norm_index (length a) i with
  | None => inl IndexError
  | Some k => inr (firstn k a ++ x :: skipn (S k) a)
  end.

(** [a[start:stop]] *)
Definition getslice (a : list A) (start stop : option Z) : list A :=
  let (lo, hi) := slice_bounds (length a) start stop in
  firstn (hi - lo) (skipn lo a).

(** [a[start:stop] = v]: [v] has the length of the slice, or one
    element that is broadcast over it. *)
Definition setslice (a : list A) (start stop : option Z) (v : list A)
  : exn + list A :=
  let (lo, hi) := slice_bounds (length a) start stop in
  let len := hi - lo in
  if length v =? len then inr (firstn lo a ++ v ++ skipn (lo + len) a)
  else match v with
       | [x] => inr (firstn lo a ++ repeat x len ++ skipn (lo + len) a)
       | _ => inl ValueError
       end.
End Array.

Local Open Scope R_scope.

(** [np.zeros_like(a)] *)
Definition zeros_like (a : list R) : list R := repeat 0 (length a).

(** [c - a], a scalar minus an array *)
Definition rsub (c : R) (a : list R) : list R := map (fun x => c - x) a.

(** [c * a], a scalar times an array *)
Definition scale (c : R) (a : list R) : list R := map (fun x => c * x) a.

(** [np.radians(a)] *)
Definition radians (a : list R) : list R := map (fun x => x * PI / 180) a.

(** [np.sin(a)], [np.cos(a)] *)
Definition sin (a : list R) : list R := map Rtrigo_def.sin a.
Definition cos (a : list R) : list R := map Rtrigo_def.cos a.

Fixpoint zip_with (f : R -> R -> R) (a b : list R) : list R :=
  match a, b with
  | x :: a', y :: b' => f x y :: zip_with f a' b'
  | _, _ => []
  end.

(** [a + b] on two arrays: equal lengths, or one of them has a single
    element that is broadcast. *)
Definition add (a b : list R) : exn + list R :=
  if (length a =? length b)%nat then inr (zip_with Rplus a b)
  else match a, b with
       | [x], _ => inr (map (fun y => x + y) b)
       | _, [y] => inr (map (fun x => x + y) a)
       | _, _ => inl ValueError
       end.

(** [a.min()], [a.max()] *)
Definition min (a : list R) : exn + R :=
  match a with
  | [] => inl ValueError
  | x :: a' => inr (fold_left Rmin a' x)
  end.

Definition max (a : list R) : exn + R :=
  match a with
  | [] => inl ValueError
  | x :: a' => inr (fold_left Rmax a' x)
  end.

(** The range the buckets of a histogram span: the given range, or the
    data's minimum and maximum, or (0, 1) for no data; a range of zero
    width is widened by one half on each side, and a range whose upper
    end is below its lower end is refused. *)
Definition outer_edges (a : list R) (range : option (R * R)) : exn + (R * R) :=
  let widen (r : R * R) : R * R :=
    if Req_dec_T (fst r) (snd r) then (fst r - 1 / 2, snd r + 1 / 2) else r in
  match range with
  | Some (lo, hi) =>
      if Rlt_dec hi lo then inl ValueError else inr (widen (lo, hi))
  | None =>
      match a with
      | [] => inr (0, 1)
      | x :: a' => inr (widen (fold_left Rmin a' x, fold_left Rmax a' x))
      end
  end.

End Np.

(* ================================================================== *)
(** ** The loaded table *)

Module Pd.

(** A [DataFrame] of numbers: the header row and the data rows, in file
    order, every row as long as the header. *)
Record DataFrame : Type := {
  columns : list string;
  rows : list (list R);
  rectangular :
    forallb (fun row => length row =? length columns) rows = true
}.

(** [len(df)] *)
Definition len (df : DataFrame) : nat := length (rows df).

(** [df.head()] *)
Definition head (df : DataFrame) : list (list R) := firstn 5 (rows df).

Fixpoint column_index (name : string) (cols : list string) : option nat :=
  match cols with
  | [] => None
  | c :: cols' =>
      if String.eqb name c then Some 0
      else option_map S (column_index name cols')
  end.

(** [df[key].values]; the key is [None] when the variable holding it was
    never assigned. *)
Definition getitem (df : DataFrame) (key : option string) : exn + list R :=
  match key with
  | None => inl (KeyError None)
  | Some name =>
      match column_index name (columns df) with
      | None => inl (KeyError (Some name))
      | Some j => inr (map (fun row => nth j row 0%R) (rows df))
      end
  end.

End Pd.

(* ================================================================== *)
(** ** Console and figure output *)

(** What a [print] call writes.  The f-strings are kept as their
    arguments; number formatting is not modelled. *)
Inductive message : Type :=
| Text (s : string)
| Loaded (n : nat)                    (* "Loaded {len(df)} GPS points" *)
| Columns (cols : list string)        (* "Columns: {list(df.columns)}" *)
| Preview (head : list (list R))      (* "Data preview:\n{df.head()}" *)
| LoadFailed (e : exn)                (* "Error loading CSV: {e}" *)
| Available (cols : list string)      (* "Available columns:", list(df.columns) *)
| Range (what : string) (lo hi : R).  (* "... range: {lo} to {hi}" *)

(** The calls that write to the console or draw on the figure; labels,
    titles, grid, legend and aspect settings are left out. *)
Inductive event : Type :=
| Print (m : message)
| Subplots (nrows ncols : nat)
| Scatter (ax : nat) (xs ys : list R) (c : string) (s : R)
| Plot (ax : nat) (xs ys : list R) (color : string)
| Hist (ax : nat) (x : list R) (bins : nat) (range : option (R * R))
| Show.

(** A computation: the events it performed, then the exception it raised
    or the value it produced. *)
Definition M (A : Type) : Type := list event * (exn + A).

Definition ret {A : Type} (a : A) : M A := ([], inr a).

Definition bind {A B : Type} (m : M A) (k : A -> M B) : M B :=
  match snd m with
  | inl e => (fst m, inl e)
  | inr a => (fst m ++ fst (k a), snd (k a))
  end.

Definition emit (e : event) : M unit := ([e], inr tt).

Definition print (m : message) : M unit := emit (Print m).

Definition lift {A : Type} (r : exn + A) : M A := ([], r).

Declare Scope py_scope.
Delimit Scope py_scope with py.
Notation "x <- c1 ;; c2" := (bind c1 (fun x => c2))
  (at level 61, c1 at next level, right associativity) : py_scope.
Notation "c1 ;; c2" := (bind c1 (fun _ => c2))
  (at level 61, right associativity) : py_scope.

(** [for i in l: body(i)] *)
Fixpoint for_each (l : list nat) (body : nat -> M unit) : M unit :=
  match l with
  | [] => ret tt
  | i :: l' => bind (body i) (fun _ => for_each l' body)
  end.

(* ================================================================== *)
(** ** The two entry points *)

Module TrackViz.
Import Resolver.
Local Open Scope py_scope.

(** Lines 51-56: the array of headings each point is drawn with. *)
Definition shifted_headings (headings : list R) : exn + list R :=
  let shifted := Np.zeros_like headings in
  match Np.setslice shifted (Some 0%Z) None
          (Np.getslice headings (Some 0%Z) None) with
  | inl e => inl e
  | inr shifted =>
      match Np.setslice shifted None (Some (-1)%Z)
              (Np.getslice headings (Some 1%Z) None) with
      | inl e => inl e
      | inr shifted =>
          match Np.getitem headings (-1)%Z with
          | inl e => inl e
          | inr last => Np.setitem shifted (-1)%Z last
          end
      end
  end.

(** [np.radians(90 - h)] *)
Definition heading_rad (h : list R) : list R := Np.radians (Np.rsub 90%R h).

(** [lats + line_length * np.sin(heading_rad)] *)
Definition end_lats (lats : list R) (line_length : R) (heading_rad : list R)
  : exn + list R :=
  Np.add lats (Np.scale line_length (Np.sin heading_rad)).

(** [lons + line_length * np.cos(heading_rad)] *)
Definition end_lons (lons : list R) (line_length : R) (heading_rad : list R)
  : exn + list R :=
  Np.add lons (Np.scale line_length (Np.cos heading_rad)).

(** The loop drawing one heading line per point (lines 74-76, 135-137). *)
Definition heading_lines (ax : nat) (color : string)
    (lons lats end_lons end_lats : list R) : M unit :=
  for_each (seq 0 (length lats)) (fun i =>
    x0 <- lift (Np.getitem lons (Z.of_nat i)) ;;
    x1 <- lift (Np.getitem end_lons (Z.of_nat i)) ;;
    y0 <- lift (Np.getitem lats (Z.of_nat i)) ;;
    y1 <- lift (Np.getitem end_lats (Z.of_nat i)) ;;
    emit (Plot ax [x0; x1] [y0; y1] color)).

Section EntryPoints.
(** [pd.read_csv]: the table a path holds, or the exception raised. *)
Variable read_csv : string -> exn + Pd.DataFrame.

(** [ax.hist]: the exception the call raises on these data, bins and
    range, if it raises one (the library refuses data it cannot split
    into the bins asked for). *)
Variable hist_raises : list R -> nat -> option (R * R) -> option exn.

(** [ax.hist(x, bins=bins)] on the axes [ax]: the call, then what it
    raises. *)
Definition hist (ax : nat) (x : list R) (bins : nat) (range : option (R * R))
  : M unit :=
  ([Hist ax x bins range],
   match hist_raises x bins range with
   | Some e => inl e
   | None => inr tt
   end).

Definition load_and_plot_gps_track (csv_file : string) (line_length : R)
  : M (option Pd.DataFrame) :=
  match read_csv csv_file with
  | inl e =>
      print (LoadFailed e) ;;
      ret None
  | inr df =>
      print (Loaded (Pd.len df)) ;;
      print (Columns (Pd.columns df)) ;;
      print (Preview (Pd.head df)) ;;
      let m := resolve_strict (Pd.columns df) in
      if negb (all_resolved m) then
        print (Text "Error: Could not find required columns (latitude, longitude, course)") ;;
        print (Available (Pd.columns df)) ;;
        ret None
      else
        lats <- lift (Pd.getitem df (lat_col m)) ;;
        lons <- lift (Pd.getitem df (lon_col m)) ;;
        headings <- lift (Pd.getitem df (heading_col m)) ;;
        shifted <- lift (shifted_headings headings) ;;
        let rad := heading_rad shifted in
        elats <- lift (end_lats lats line_length rad) ;;
        elons <- lift (end_lons lons line_length rad) ;;
        emit (Subplots 1 1) ;;
        emit (Scatter 0 lons lats "red" (1 / 10)%R) ;;
        heading_lines 0 "blue" lons lats elons elats ;;
        emit (Plot 0 lons lats "gray") ;;
        print (Text (String "010"%char "Track Statistics:")) ;;
        lat_lo <- lift (Np.min lats) ;;
        lat_hi <- lift (Np.max lats) ;;
        print (Range "Latitude" lat_lo lat_hi) ;;
        lon_lo <- lift (Np.min lons) ;;
        lon_hi <- lift (Np.max lons) ;;
        print (Range "Longitude" lon_lo lon_hi) ;;
        h_lo <- lift (Np.min headings) ;;
        h_hi <- lift (Np.max headings) ;;
        print (Range "Heading" h_lo h_hi) ;;
        emit Show ;;
        ret (Some df)
  end.

Definition plot_with_custom_settings (csv_file : string) (line_length : R)
    (point_size : R) (line_color point_color : string)
  : M (option Pd.DataFrame) :=
  df <- lift (read_csv csv_file) ;;
  let m := resolve_permissive (Pd.columns df) in
  lats <- lift (Pd.getitem df (lat_col m)) ;;
  lons <- lift (Pd.getitem df (lon_col m)) ;;
  headings <- lift (Pd.getitem df (heading_col m)) ;;
  let rad := heading_rad headings in
  elats <- lift (end_lats lats line_length rad) ;;
  elons <- lift (end_lons lons line_length rad) ;;
  emit (Subplots 1 2) ;;
  emit (Scatter 0 lons lats point_color point_size) ;;
  heading_lines 0 line_color lons lats elons elats ;;
  emit (Plot 0 lons lats "gray") ;;
  hist 1 headings 36 None ;;
  emit Show ;;
  ret (Some df).
End EntryPoints.

End TrackViz.

(* ================================================================== *)
(** ** The same arithmetic with NaN *)

Module Ieee.
Local Open Scope R_scope.

(** A float64 value as lines 51-65 compute with it: a number, or NaN,
    which a missing cell reads as and which every operation hands on.
    Infinities, rounding and overflow are not modelled: an operation on
    numbers gives the exact result. *)
Inductive float : Type := Num (x : R) | NaN.

Definition lift1 (f : R -> R) (a : float) : float :=
  match a with
  | Num x => Num (f x)
  | NaN => NaN
  end.

Definition lift2 (f : R -> R -> R) (a b : float) : float :=
  match a, b with
  | Num x, Num y => Num (f x y)
  | _, _ => NaN
  end.

Definition is_num (a : float) : bool :=
  match a with
  | Num _ => true
  | NaN => false
  end.

(** An array without NaN. *)
Definition all_num (a : list float) : bool := forallb is_num a.

(** [np.zeros_like(a)] *)
Definition zeros_like (a : list float) : list float :=
  repeat (Num 0) (length a).

(** [c - a], [c * a], [np.radians(a)], [np.sin(a)], [np.cos(a)] *)
Definition rsub (c : float) (a : list float) : list float :=
  map (fun x => lift2 Rminus c x) a.

Definition scale (c : float) (a : list float) : list float :=
  map (fun x => lift2 Rmult c x) a.

Definition radians (a : list float) : list float :=
  map (lift1 (fun x => x * PI / 180)) a.

Definition sin (a : list float) : list float := map (lift1 Rtrigo_def.sin) a.
Definition cos (a : list float) : list float := map (lift1 Rtrigo_def.cos) a.

Fixpoint zip_with (f : float -> float -> float) (a b : list float)
  : list float :=
  match a, b with
  | x :: a', y :: b' => f x y :: zip_with f a' b'
  | _, _ => []
  end.

(** [a + b] on two arrays, as [Np.add]. *)
Definition add (a b : list float) : exn + list float :=
  if (length a =? length b)%nat then inr (zip_with (lift2 Rplus) a b)
  else match a, b with
       | [x], _ => inr (map (fun y => lift2 Rplus x y) b)
       | _, [y] => inr (map (fun x => lift2 Rplus x y) a)
       | _, _ => inl ValueError
       end.

(** Lines 51-56. *)
Definition shifted_headings (headings : list float) : exn + list float :=
  let shifted := zeros_like headings in
  match Np.setslice shifted (Some 0%Z) None
          (Np.getslice headings (Some 0%Z) None) with
  | inl e => inl e
  | inr shifted =>
      match Np.setslice shifted None (Some (-1)%Z)
              (Np.getslice headings (Some 1%Z) None) with
      | inl e => inl e
      | inr shifted =>
          match Np.getitem headings (-1)%Z with
          | inl e => inl e
          | inr last => Np.setitem shifted (-1)%Z last
          end
      end
  end.

(** Lines 61 and 126: [np.radians(90 - h)] *)
Definition heading_rad (h : list float) : list float :=
  radians (rsub (Num 90) h).

(** Lines 64 and 127: [lats + line_length * np.sin(heading_rad)] *)
Definition end_lats (lats : list float) (line_length : float)
    (heading_rad : list float) : exn + list float :=
  add lats (scale line_length (sin heading_rad)).

(** Lines 65 and 128: [lons + line_length * np.cos(heading_rad)] *)
Definition end_lons (lons : list float) (line_length : float)
    (heading_rad : list float) : exn + list float :=
  add lons (scale line_length (cos heading_rad)).

(** A result over numbers, read as a result over floats. *)
Definition of_reals (r : exn + list R) : exn + list float :=
  match r with
  | inl e => inl e
  | inr a => inr (map Num a)
  end.

End Ieee.

(* ================================================================== *)
(** ** Vocabulary of the statements *)

Module Examples.
Import TrackViz.
Local Open Scope R_scope.

(** The line drawn at the point (lat, lon) for the compass heading [h]:
    from (lon, lat) to the point [line_length] away in that direction. *)
Definition segment (ax : nat) (color : string) (lat lon line_length h : R)
  : event :=
  Plot ax [lon; lon + line_length * Rtrigo_def.cos ((90 - h) * PI / 180)]
          [lat; lat + line_length * Rtrigo_def.sin ((90 - h) * PI / 180)]
          color.

(** "Approximately": within one half, a generous reading. *)
Definition close (x y : R) : Prop := Rabs (x - y) < 1 / 2.

(** The two-row example as it is stated: shifted headings [90, 90],
    row 0 ends near (lat 1, lon 0), row 1 ends near (lat 1, lon 2). *)
Definition two_row_example_as_stated : Prop :=
  exists elats elons,
    shifted_headings [0; 90] = inr [90; 90] /\
    end_lats [0; 1] 1 (heading_rad [90; 90]) = inr elats /\
    end_lons [0; 1] 1 (heading_rad [90; 90]) = inr elons /\
    close (nth 0 elats 0) 1 /\ close (nth 0 elons 0) 0 /\
    close (nth 1 elats 0) 1 /\ close (nth 1 elons 0) 2.

(** The same two rows under column names each variant resolves. *)
Definition strict_table : Pd.DataFrame :=
  {| Pd.columns := ["Latitude (deg)"; "Longitude (deg)"; "Course Over Ground"];
     Pd.rows := [[0; 0; 0]; [1; 1; 90]];
     Pd.rectangular := eq_refl |}.

Definition permissive_table : Pd.DataFrame :=
  {| Pd.columns := ["lat"; "lon"; "heading"];
     Pd.rows := [[0; 0; 0]; [1; 1; 90]];
     Pd.rectangular := eq_refl |}.

(** Two rows with the same heading. *)
Definition constant_heading_table : Pd.DataFrame :=
  {| Pd.columns := ["lat"; "lon"; "heading"];
     Pd.rows := [[0; 0; 90]; [1; 1; 90]];
     Pd.rectangular := eq_refl |}.

(** A header without rows. *)
Definition empty_table : Pd.DataFrame :=
  {| Pd.columns := ["latitude"; "longitude"; "course"]; Pd.rows := [];
     Pd.rectangular := eq_refl |}.

(** A table none of whose columns is recognised. *)
Definition unrecognised_table : Pd.DataFrame :=
  {| Pd.columns := ["x"; "y"; "z"]; Pd.rows := [[1; 2; 3]];
     Pd.rectangular := eq_refl |}.

(** A header with two latitude columns. *)
Definition two_latitudes : list string :=
  ["latitude"; "gps latitude"; "longitude"; "course"].

Definition two_lats : list string := ["lat"; "lat_raw"; "lon"; "heading"].

End Examples.

(* ================================================================== *)
(** ** The script entry (lines 159-182) *)

Module Script.
Local Open Scope py_scope.

(** [s * n] on a string *)
Fixpoint str_mul (s : string) (n : nat) : string :=
  match n with
  | O => EmptyString
  | S n' => (s ++ str_mul s n')%string
  end.

Definition csv_filename : string := "FSGP_2024_Pregenerated.csv".

(** The seven lines printed after the call, as a trace. *)
Definition usage : list event :=
  [Print (Text (String "010"%char "To use this script:"));
   Print (Text "1. Update 'csv_filename' with your file path");
   Print (Text "2. Uncomment one of the function calls above");
   Print (Text "3. Adjust line_length parameter based on your data scale");
   Print (Text "   - For city-level data: try 0.001-0.005");
   Print (Text "   - For regional data: try 0.01-0.05");
   Print (Text "   - For country-level data: try 0.1-0.5")].

(** The body of [if __name__ == "__main__":]. *)
Definition main (read_csv : string -> exn + Pd.DataFrame) : M unit :=
  print (Text "GPS Track Visualization") ;;
  print (Text (str_mul "=" 30)) ;;
  df <- TrackViz.load_and_plot_gps_track read_csv csv_filename
          (5 / 1000000)%R ;;
  print (Text (String "010"%char "To use this script:")) ;;
  print (Text "1. Update 'csv_filename' with your file path") ;;
  print (Text "2. Uncomment one of the function calls above") ;;
  print (Text "3. Adjust line_length parameter based on your data scale") ;;
  print (Text "   - For city-level data: try 0.001-0.005") ;;
  print (Text "   - For regional data: try 0.01-0.05") ;;
  print (Text "   - For country-level data: try 0.1-0.5").

End Script.

(* ================================================================== *)
(** ** Further vocabulary *)

Module Words.

(** A string of whitespace only. *)
Fixpoint all_space (s : string) : bool :=
  match s with
  | EmptyString => true
  | String c s' => PyStr.is_space c && all_space s'
  end.

(** A string without any whitespace. *)
Fixpoint no_space (s : string) : bool :=
  match s with
  | EmptyString => true
  | String c s' => negb (PyStr.is_space c) && no_space s'
  end.

(** The substrings the two loops look for. *)
Definition needles : list string :=
  ["latitude"; "longitude"; "long"; "course"; "lat"; "lon"; "head"].

End Words.

(* ================================================================== *)
(** * Properties *)

(** ** Substring tests *)

Section Substrings.
Import PyStr.

Lemma prefix_append_l (a b s : string) :
  prefix (a ++ b)%string s = true -> prefix a s = true.
Proof.
  revert s; induction a as [|c a IH]; intros s H.
  - destruct s; reflexivity.
  - destruct s as [|d s]; simpl in *; [discriminate|].
    destruct (ascii_dec c d); [apply IH; exact H | discriminate].
Qed.

Lemma contains_append_l (a b s : string) :
  contains (a ++ b)%string s = true -> contains a s = true.
Proof.
  induction s as [|d s IH]; cbn [contains]; intros H.
  - apply orb_true_iff in H. destruct H as [H|H]; [|discriminate].
    apply prefix_append_l in H. rewrite H. reflexivity.
  - apply orb_true_iff in H. apply orb_true_iff. destruct H as [H|H].
    + left. apply prefix_append_l with (b := b). exact H.
    + right. apply IH. exact H.
Qed.

Lemma longitude_contains_long (s : string) :
  contains "longitude" s = true -> contains "long" s = true.
Proof. apply (contains_append_l "long" "itude"). Qed.

Lemma longitude_or_long (s : string) :
  contains "longitude" s || contains "long" s = contains "long" s.
Proof.
  destruct (contains "longitude" s) eqn:E; [|reflexivity].
  simpl. symmetry. apply longitude_contains_long. exact E.
Qed.
End Substrings.

(** ** What the resolution loops compute *)

Section Resolution.
Import PyStr Resolver.

Lemma strict_step_get (m : mapping) (col : string) (c : category) :
  get (strict_step m col) c =
  if matches strict_category c col then Some col else get m c.
Proof.
  unfold strict_step, matches, strict_category.
  destruct (contains "latitude" _); [destruct c; reflexivity|].
  destruct (contains "longitude" _ || contains "long" _);
    [destruct c; reflexivity|].
  destruct (contains "course" _); destruct c; reflexivity.
Qed.

Lemma permissive_step_get (m : mapping) (col : string) (c : category) :
  get (permissive_step m col) c =
  if matches permissive_category c col then Some col else get m c.
Proof.
  unfold permissive_step, matches, permissive_category.
  destruct (contains "lat" _); [destruct c; reflexivity|].
  destruct (contains "lon" _ || contains "long" _);
    [destruct c; reflexivity|].
  destruct (contains "head" _); destruct c; reflexivity.
Qed.

(** A loop whose body overwrites the variable of the matched category
    leaves in each variable the last match, or the initial value. *)
Lemma fold_overwrite (step : mapping -> string -> mapping)
    (cat_of : string -> option category)
    (Hstep : forall m col c,
        get (step m col) c =
        if matches cat_of c col then Some col else get m c)
    (cols : list string) (m : mapping) (c : category) :
  get (fold_left step cols m) c =
  match last_match (matches cat_of c) cols with
  | Some col => Some col
  | None => get m c
  end.
Proof.
  unfold last_match.
  induction cols as [|col cols IH] using rev_ind; [reflexivity|].
  rewrite fold_left_app, rev_app_distr. simpl.
  rewrite Hstep. destruct (matches cat_of c col); [reflexivity|exact IH].
Qed.

Lemma resolve_strict_get (cols : list string) (c : category) :
  get (resolve_strict cols) c = last_match (matches strict_category c) cols.
Proof.
  unfold resolve_strict.
  rewrite (fold_overwrite strict_step strict_category strict_step_get).
  destruct (last_match _ cols); [reflexivity | destruct c; reflexivity].
Qed.

Lemma resolve_permissive_get (cols : list string) (c : category) :
  get (resolve_permissive cols) c =
  last_match (matches permissive_category c) cols.
Proof.
  unfold resolve_permissive.
  rewrite (fold_overwrite permissive_step permissive_category
             permissive_step_get).
  destruct (last_match _ cols); [reflexivity | destruct c; reflexivity].
Qed.

Lemma last_match_some (p : string -> bool) (cols : list string) (col : string) :
  last_match p cols = Some col -> In col cols /\ p col = true.
Proof.
  unfold last_match. intros H. apply find_some in H.
  destruct H as [Hin Hp]. split; [apply in_rev; exact Hin | exact Hp].
Qed.

Lemma last_match_none (p : string -> bool) (cols : list string) :
  last_match p cols = None -> forall col, In col cols -> p col = false.
Proof.
  unfold last_match. intros H col Hin.
  apply (find_none _ _ H). apply in_rev in Hin. exact Hin.
Qed.
End Resolution.

(** ** Array indexing *)

Section ArrayFacts.
Context {A : Type}.

Lemma clip_bound_0 (n : nat) : Np.clip_bound n 0 = 0.
Proof. unfold Np.clip_bound. change (0 <? 0)%Z with false. cbv iota. lia. Qed.

Lemma clip_bound_1 (n : nat) : Np.clip_bound n 1 = Nat.min 1 n.
Proof. unfold Np.clip_bound. change (1 <? 0)%Z with false. cbv iota. lia. Qed.

Lemma clip_bound_m1 (n : nat) : Np.clip_bound n (-1) = n - 1.
Proof. unfold Np.clip_bound. change (-1 <? 0)%Z with true. cbv iota. lia. Qed.

Lemma norm_index_m1 (n : nat) :
  Np.norm_index (S n) (-1) = Some n.
Proof.
  unfold Np.norm_index. change (-1 <? 0)%Z with true. cbv iota.
  destruct (Z.leb_spec 0 (-1 + Z.of_nat (S n))); [|lia].
  destruct (Z.ltb_spec (-1 + Z.of_nat (S n)) (Z.of_nat (S n))); [|lia].
  simpl andb. cbv iota. f_equal. lia.
Qed.

Lemma norm_index_of_nat (n i : nat) :
  i < n -> Np.norm_index n (Z.of_nat i) = Some i.
Proof.
  intros H. unfold Np.norm_index.
  destruct (Z.ltb_spec (Z.of_nat i) 0); [lia|].
  destruct (Z.leb_spec 0 (Z.of_nat i)); [|lia].
  destruct (Z.ltb_spec (Z.of_nat i) (Z.of_nat n)); [|lia].
  simpl andb. cbv iota. f_equal. lia.
Qed.

Lemma norm_index_out (n : nat) (i : Z) :
  (i < - Z.of_nat n \/ Z.of_nat n <= i)%Z -> Np.norm_index n i = None.
Proof.
  intros H. unfold Np.norm_index.
  destruct (Z.ltb_spec i 0).
  - destruct (Z.leb_spec 0 (i + Z.of_nat n)); [|reflexivity].
    destruct (Z.ltb_spec (i + Z.of_nat n) (Z.of_nat n)); [lia|reflexivity].
  - destruct (Z.leb_spec 0 i); [|reflexivity].
    destruct (Z.ltb_spec i (Z.of_nat n)); [lia|reflexivity].
Qed.

(** [a[0:]] is the whole array. *)
Lemma getslice_all (a : list A) : Np.getslice a (Some 0%Z) None = a.
Proof.
  unfold Np.getslice, Np.slice_bounds. rewrite clip_bound_0.
  rewrite Nat.sub_0_r. simpl. apply firstn_all.
Qed.

(** [a[1:]] drops the first element. *)
Lemma getslice_tail (a : list A) : Np.getslice a (Some 1%Z) None = tl a.
Proof.
  unfold Np.getslice, Np.slice_bounds. rewrite clip_bound_1.
  destruct a as [|x a]; [reflexivity|].
  simpl. rewrite Nat.sub_0_r. apply firstn_all.
Qed.

(** [a[0:] = v] replaces the whole array when the lengths agree. *)
Lemma setslice_all (a v : list A) :
  length v = length a -> Np.setslice a (Some 0%Z) None v = inr v.
Proof.
  intros H. unfold Np.setslice, Np.slice_bounds. rewrite clip_bound_0.
  rewrite Nat.sub_0_r, H, Nat.eqb_refl. simpl.
  rewrite skipn_all. rewrite app_nil_r. reflexivity.
Qed.

(** [a[:-1] = v] replaces all but the last element. *)
Lemma setslice_init (a v : list A) :
  length v = length a - 1 ->
  Np.setslice a None (Some (-1)%Z) v = inr (v ++ skipn (length a - 1) a).
Proof.
  intros H. unfold Np.setslice, Np.slice_bounds. rewrite clip_bound_m1.
  rewrite Nat.sub_0_r, H, Nat.eqb_refl. reflexivity.
Qed.

(** [a[-1]] is the last element. *)
Lemma getitem_last (a : list A) (x : A) :
  Np.getitem (a ++ [x]) (-1) = inr x.
Proof.
  unfold Np.getitem. rewrite length_app. simpl length.
  rewrite Nat.add_1_r, norm_index_m1.
  rewrite nth_error_app2, Nat.sub_diag by lia. reflexivity.
Qed.

(** [a[-1] = y] overwrites the last element. *)
Lemma setitem_last (a : list A) (x y : A) :
  Np.setitem (a ++ [x]) (-1) y = inr (a ++ [y]).
Proof.
  unfold Np.setitem. rewrite length_app. simpl length.
  rewrite Nat.add_1_r, norm_index_m1.
  rewrite firstn_app, firstn_all, Nat.sub_diag. simpl firstn.
  rewrite app_nil_r. rewrite skipn_all2 by (rewrite length_app; simpl; lia).
  reflexivity.
Qed.

Lemma getitem_empty (i : Z) : Np.getitem (@nil A) i = inl IndexError.
Proof.
  unfold Np.getitem. rewrite norm_index_out; [reflexivity|simpl; lia].
Qed.

Lemma getitem_nat (a : list A) (i : nat) (x : A) :
  nth_error a i = Some x -> Np.getitem a (Z.of_nat i) = inr x.
Proof.
  intros H. unfold Np.getitem.
  rewrite norm_index_of_nat by (apply nth_error_Some; congruence).
  rewrite H. reflexivity.
Qed.
End ArrayFacts.

(** ** The shifted headings *)

Section Shift.
Import TrackViz.

(** With no rows, [headings[-1]] is out of bounds. *)
Lemma shifted_headings_empty : shifted_headings [] = inl IndexError.
Proof. reflexivity. Qed.

(** With at least one row, every element but the last is replaced by
    its successor. *)
Lemma shifted_headings_snoc (init : list R) (last : R) :
  shifted_headings (init ++ [last]) = inr (tl (init ++ [last]) ++ [last]).
Proof.
  unfold shifted_headings.
  rewrite getslice_all, setslice_all
    by (unfold Np.zeros_like; symmetry; apply repeat_length).
  rewrite getslice_tail.
  rewrite setslice_init
    by (destruct init; simpl; rewrite ?length_app; simpl; lia).
  rewrite length_app. simpl length. rewrite Nat.add_sub.
  rewrite skipn_app, skipn_all, Nat.sub_diag. simpl skipn. simpl app at 2.
  rewrite getitem_last.
  destruct init as [|h init].
  - reflexivity.
  - simpl tl. rewrite setitem_last. reflexivity.
Qed.
End Shift.

Section ShiftIndexed.
Import TrackViz.

Lemma nth_error_tl {A : Type} (l : list A) (i : nat) :
  nth_error (tl l) i = nth_error l (S i).
Proof. destruct l; [destruct i|]; reflexivity. Qed.

(** Index-wise reading of [shifted_headings] on a non-empty array. *)
Lemma shifted_headings_indexed (headings : list R) :
  headings <> [] ->
  exists shifted,
    shifted_headings headings = inr shifted /\
    length shifted = length headings /\
    (forall i, S i < length headings ->
               nth_error shifted i = nth_error headings (S i)) /\
    nth_error shifted (length headings - 1) =
    nth_error headings (length headings - 1).
Proof.
  intros Hne.
  destruct (exists_last Hne) as [init [last ->]].
  exists (tl (init ++ [last]) ++ [last]).
  assert (Hlen : length (tl (init ++ [last])) = length init).
  { destruct init; simpl; rewrite ?length_app; simpl; lia. }
  split; [apply shifted_headings_snoc|].
  rewrite !length_app, Hlen. simpl length. rewrite Nat.add_sub.
  split; [reflexivity|]. split.
  - intros i Hi.
    rewrite nth_error_app1 by lia. apply nth_error_tl.
  - rewrite !nth_error_app2 by lia.
    rewrite Hlen, Nat.sub_diag. reflexivity.
Qed.
End ShiftIndexed.

(** C1: for a headings array of length N >= 2 the shifted array holds at
    every index i in [0, N-2] the heading of index i+1 and at index N-1
    the heading of index N-1; for N = 1 it holds the single heading. *)
Theorem shifted_headings_next_or_self (headings : list R) :
  (2 <= length headings ->
   exists shifted,
     TrackViz.shifted_headings headings = inr shifted /\
     length shifted = length headings /\
     (forall i, i <= length headings - 2 ->
                nth_error shifted i = nth_error headings (i + 1)) /\
     nth_error shifted (length headings - 1) =
     nth_error headings (length headings - 1)) /\
  (length headings = 1 ->
   exists shifted,
     TrackViz.shifted_headings headings = inr shifted /\
     length shifted = 1 /\
     nth_error shifted 0 = nth_error headings 0).
Proof.
  split; intros HN.
  - destruct (shifted_headings_indexed headings) as [sh [H1 [H2 [H3 H4]]]].
    { intros ->. simpl in HN. lia. }
    exists sh. repeat split; try assumption.
    intros i Hi. rewrite Nat.add_1_r. apply H3. lia.
  - destruct (shifted_headings_indexed headings) as [sh [H1 [H2 [H3 H4]]]].
    { intros ->. simpl in HN. lia. }
    exists sh. rewrite HN in *. repeat split; assumption.
Qed.

Lemma shifted_headings_next_or_self_witness :
  (exists shifted,
     TrackViz.shifted_headings [10; 20; 30]%R = inr shifted /\
     length shifted = 3 /\
     (forall i, i <= 1 -> nth_error shifted i = nth_error [10; 20; 30]%R (i + 1)) /\
     nth_error shifted 2 = Some 30%R) /\
  (exists shifted,
     TrackViz.shifted_headings [10]%R = inr shifted /\
     length shifted = 1 /\
     nth_error shifted 0 = Some 10%R).
Proof.
  split.
  - apply (proj1 (shifted_headings_next_or_self [10; 20; 30]%R)). simpl. lia.
  - apply (proj2 (shifted_headings_next_or_self [10]%R)). reflexivity.
Defined.

(** ** Segment end points *)

Section Geometry.
Import TrackViz.
Local Open Scope R_scope.

Lemma zip_with_length (f : R -> R -> R) (a b : list R) :
  length a = length b -> length (Np.zip_with f a b) = length a.
Proof.
  revert b; induction a as [|x a IH]; intros [|y b] H; simpl in *;
    try discriminate; [reflexivity|].
  f_equal. apply IH. congruence.
Qed.

Lemma zip_with_nth_error (f : R -> R -> R) (a b : list R) (i : nat) (x y : R) :
  nth_error a i = Some x -> nth_error b i = Some y ->
  nth_error (Np.zip_with f a b) i = Some (f x y).
Proof.
  revert b i; induction a as [|x' a IH]; intros [|y' b] [|i] Ha Hb;
    simpl in *; try discriminate.
  - congruence.
  - apply IH; assumption.
Qed.

Lemma add_same_length (a b : list R) :
  length a = length b -> Np.add a b = inr (Np.zip_with Rplus a b).
Proof. intros H. unfold Np.add. rewrite H, Nat.eqb_refl. reflexivity. Qed.

Lemma zip_with_plus_zero (a b : list R) :
  length a = length b ->
  Np.zip_with Rplus a (Np.scale 0 b) = a.
Proof.
  revert b; induction a as [|x a IH]; intros [|y b] H; simpl in *;
    try discriminate; [reflexivity|].
  rewrite IH by congruence. f_equal. lra.
Qed.

Lemma heading_rad_length (h : list R) : length (heading_rad h) = length h.
Proof. unfold heading_rad, Np.radians, Np.rsub. rewrite !length_map. reflexivity. Qed.

Lemma heading_rad_nth_error (h : list R) (i : nat) (x : R) :
  nth_error h i = Some x ->
  nth_error (heading_rad h) i = Some ((90 - x) * PI / 180).
Proof.
  intros H. unfold heading_rad, Np.radians, Np.rsub.
  rewrite !nth_error_map, H. reflexivity.
Qed.

Lemma end_lats_same_length (lats : list R) (L : R) (rad : list R) :
  length lats = length rad ->
  end_lats lats L rad =
  inr (Np.zip_with Rplus lats (Np.scale L (Np.sin rad))).
Proof.
  intros H. unfold end_lats. apply add_same_length.
  unfold Np.scale, Np.sin. rewrite !length_map. exact H.
Qed.

Lemma end_lons_same_length (lons : list R) (L : R) (rad : list R) :
  length lons = length rad ->
  end_lons lons L rad =
  inr (Np.zip_with Rplus lons (Np.scale L (Np.cos rad))).
Proof.
  intros H. unfold end_lons. apply add_same_length.
  unfold Np.scale, Np.cos. rewrite !length_map. exact H.
Qed.

(** Index-wise reading of the two end-point arrays. *)
Lemma end_points_indexed (lats lons h : list R) (L : R) :
  length lats = length h -> length lons = length h ->
  exists elats elons,
    end_lats lats L (heading_rad h) = inr elats /\
    end_lons lons L (heading_rad h) = inr elons /\
    length elats = length h /\ length elons = length h /\
    forall i lat lon x,
      nth_error lats i = Some lat -> nth_error lons i = Some lon ->
      nth_error h i = Some x ->
      nth_error elats i = Some (lat + L * sin ((90 - x) * PI / 180)) /\
      nth_error elons i = Some (lon + L * cos ((90 - x) * PI / 180)).
Proof.
  intros Hlat Hlon.
  pose proof (heading_rad_length h) as Hr.
  eexists; eexists.
  split; [apply end_lats_same_length; congruence|].
  split; [apply end_lons_same_length; congruence|].
  split; [rewrite zip_with_length; [congruence|];
          unfold Np.scale, Np.sin; rewrite !length_map; congruence|].
  split; [rewrite zip_with_length; [congruence|];
          unfold Np.scale, Np.cos; rewrite !length_map; congruence|].
  intros i lat lon x Hi Hj Hx.
  apply heading_rad_nth_error in Hx.
  split; apply zip_with_nth_error; try assumption;
    unfold Np.scale, Np.sin, Np.cos; rewrite !nth_error_map, Hx; reflexivity.
Qed.
End Geometry.

(** C4: in [load_and_plot_gps_track] the end point of the segment at every
    index i is lat[i] + line_length * sin(radians(90 - shifted[i])),
    lon[i] + line_length * cos(radians(90 - shifted[i])), where
    radians(x) = x * PI / 180. *)
Theorem end_points_from_shifted_heading
    (lats lons headings : list R) (line_length : R) :
  length lats = length headings -> length lons = length headings ->
  headings <> [] ->
  exists shifted elats elons,
    TrackViz.shifted_headings headings = inr shifted /\
    TrackViz.end_lats lats line_length (TrackViz.heading_rad shifted) = inr elats /\
    TrackViz.end_lons lons line_length (TrackViz.heading_rad shifted) = inr elons /\
    forall i, i < length headings ->
      exists lat lon sh,
        nth_error lats i = Some lat /\ nth_error lons i = Some lon /\
        nth_error shifted i = Some sh /\
        nth_error elats i =
          Some (lat + line_length * sin ((90 - sh) * PI / 180))%R /\
        nth_error elons i =
          Some (lon + line_length * cos ((90 - sh) * PI / 180))%R.
Proof.
  intros Hlat Hlon Hne.
  destruct (shifted_headings_indexed headings Hne) as [sh [Hs [Hl _]]].
  destruct (end_points_indexed lats lons sh line_length) as
      [elats [elons [H1 [H2 [_ [_ H5]]]]]]; try congruence.
  exists sh, elats, elons. repeat split; try assumption.
  intros i Hi.
  destruct (nth_error lats i) as [lat|] eqn:Ea;
    [|apply nth_error_None in Ea; lia].
  destruct (nth_error lons i) as [lon|] eqn:Eo;
    [|apply nth_error_None in Eo; lia].
  destruct (nth_error sh i) as [x|] eqn:Ex;
    [|apply nth_error_None in Ex; lia].
  exists lat, lon, x. destruct (H5 i lat lon x Ea Eo Ex) as [Hx Hy].
  repeat split; assumption.
Qed.

Lemma end_points_from_shifted_heading_witness :
  exists shifted elats elons,
    TrackViz.shifted_headings [0; 90]%R = inr shifted /\
    TrackViz.end_lats [0; 1]%R 1 (TrackViz.heading_rad shifted) = inr elats /\
    TrackViz.end_lons [0; 1]%R 1 (TrackViz.heading_rad shifted) = inr elons /\
    forall i, i < 2 ->
      exists lat lon sh,
        nth_error [0; 1]%R i = Some lat /\ nth_error [0; 1]%R i = Some lon /\
        nth_error shifted i = Some sh /\
        nth_error elats i = Some (lat + 1 * sin ((90 - sh) * PI / 180))%R /\
        nth_error elons i = Some (lon + 1 * cos ((90 - sh) * PI / 180))%R.
Proof.
  apply (end_points_from_shifted_heading [0; 1]%R [0; 1]%R [0; 90]%R 1%R);
    [reflexivity | reflexivity | discriminate].
Defined.

(** With line_length = 0 the two additions leave the points unchanged,
    whatever headings they are given. *)
Lemma zero_length_any (lats lons h : list R) :
  length lats = length h -> length lons = length h ->
  TrackViz.end_lats lats 0 (TrackViz.heading_rad h) = inr lats /\
  TrackViz.end_lons lons 0 (TrackViz.heading_rad h) = inr lons.
Proof.
  intros Hlat Hlon.
  pose proof (heading_rad_length h) as Hr.
  rewrite end_lats_same_length, end_lons_same_length by congruence.
  unfold Np.sin, Np.cos.
  rewrite !zip_with_plus_zero by (rewrite length_map; congruence).
  split; reflexivity.
Qed.

(** ** Numbers and NaN *)

Section NanFacts.
Import Ieee.

Lemma all_num_reals (a : list float) :
  all_num a = true -> exists r, a = map Num r.
Proof.
  induction a as [|x a IH]; intros H; [exists []; reflexivity|].
  simpl in H. apply andb_true_iff in H. destruct H as [Hx Ha].
  destruct (IH Ha) as [r ->]. destruct x as [x|]; [|discriminate].
  exists (x :: r). reflexivity.
Qed.

Lemma all_num_map_Num (r : list R) : all_num (map Num r) = true.
Proof. induction r as [|x r IH]; [reflexivity | exact IH]. Qed.

Lemma zip_with_reals (f : R -> R -> R) (a b : list R) :
  Ieee.zip_with (lift2 f) (map Num a) (map Num b) =
  map Num (Np.zip_with f a b).
Proof.
  revert b; induction a as [|x a IH]; intros [|y b]; try reflexivity.
  simpl. rewrite IH. reflexivity.
Qed.

(** On numbers the array sum is that of [Np.add]. *)
Lemma add_reals (a b : list R) :
  Ieee.add (map Num a) (map Num b) = of_reals (Np.add a b).
Proof.
  unfold Ieee.add, Np.add. rewrite !length_map.
  destruct (length a =? length b).
  - simpl. rewrite zip_with_reals. reflexivity.
  - destruct a as [|x [|x' a]], b as [|y [|y' b]]; simpl;
      rewrite ?map_map; reflexivity.
Qed.

Lemma heading_rad_reals (h : list R) :
  Ieee.heading_rad (map Num h) = map Num (TrackViz.heading_rad h).
Proof.
  unfold Ieee.heading_rad, TrackViz.heading_rad, radians, rsub, Np.radians,
    Np.rsub.
  rewrite !map_map. reflexivity.
Qed.

(** On numbers lines 64-65 compute what they compute over the reals. *)
Lemma end_points_reals (lats lons : list R) (L : R) (rad : list R) :
  Ieee.end_lats (map Num lats) (Num L) (map Num rad) =
    of_reals (TrackViz.end_lats lats L rad) /\
  Ieee.end_lons (map Num lons) (Num L) (map Num rad) =
    of_reals (TrackViz.end_lons lons L rad).
Proof.
  unfold Ieee.end_lats, Ieee.end_lons, TrackViz.end_lats, TrackViz.end_lons.
  rewrite <- !add_reals.
  unfold scale, sin, cos, Np.scale, Np.sin, Np.cos.
  rewrite !map_map. split; reflexivity.
Qed.

(** The shift over floats, in closed form. *)
Lemma shifted_headings_float_snoc (init : list float) (last : float) :
  Ieee.shifted_headings (init ++ [last]) = inr (tl (init ++ [last]) ++ [last]).
Proof.
  unfold Ieee.shifted_headings.
  rewrite getslice_all, setslice_all
    by (unfold zeros_like; symmetry; apply repeat_length).
  rewrite getslice_tail.
  rewrite setslice_init
    by (destruct init; simpl; rewrite ?length_app; simpl; lia).
  rewrite length_app. simpl length. rewrite Nat.add_sub.
  rewrite skipn_app, skipn_all, Nat.sub_diag. simpl skipn. simpl app at 2.
  rewrite getitem_last.
  destruct init as [|h init].
  - reflexivity.
  - simpl tl. rewrite setitem_last. reflexivity.
Qed.

(** Shifting takes its values from the headings: without NaN in, no NaN
    out, and the length is kept. *)
Lemma shifted_headings_float_num (headings shifted : list float) :
  Ieee.shifted_headings headings = inr shifted ->
  all_num headings = true ->
  all_num shifted = true /\ length shifted = length headings.
Proof.
  intros Hs Hn. destruct headings as [|h t]; [discriminate Hs|].
  assert (Hne : h :: t <> []) by discriminate.
  destruct (exists_last Hne) as [init [l E]].
  rewrite E in Hs, Hn |- *. rewrite shifted_headings_float_snoc in Hs.
  injection Hs as <-.
  unfold all_num in *. rewrite forallb_app in Hn.
  apply andb_true_iff in Hn. destruct Hn as [Hi Hl].
  split.
  - rewrite forallb_app. apply andb_true_iff. split; [|exact Hl].
    destruct init as [|x init]; [reflexivity|].
    simpl tl. simpl in Hi. apply andb_true_iff in Hi.
    rewrite forallb_app. apply andb_true_iff. split; [exact (proj2 Hi)|exact Hl].
  - destruct init; simpl; rewrite ?length_app; simpl; lia.
Qed.

Lemma zip_with_float_nth_error (f : float -> float -> float)
    (a b : list float) (i : nat) (x y : float) :
  nth_error a i = Some x -> nth_error b i = Some y ->
  nth_error (Ieee.zip_with f a b) i = Some (f x y).
Proof.
  revert b i; induction a as [|x' a IH]; intros [|y' b] [|i] Ha Hb;
    simpl in *; try discriminate.
  - congruence.
  - apply IH; assumption.
Qed.

(** NaN is handed on: a row whose heading or whose latitude is NaN gets
    a NaN end latitude, whatever line_length is. *)
Lemma nan_is_handed_on (lats h elats : list float) (L : float) (i : nat) :
  length lats = length h ->
  Ieee.end_lats lats L (Ieee.heading_rad h) = inr elats ->
  (nth_error h i = Some NaN \/ nth_error lats i = Some NaN) ->
  (i < length h)%nat ->
  nth_error elats i = Some NaN.
Proof.
  intros Hlen He Hnan Hi.
  unfold Ieee.end_lats, Ieee.add in He.
  unfold scale, sin, Ieee.heading_rad, radians, rsub in He.
  rewrite !length_map, Hlen, Nat.eqb_refl in He. injection He as <-.
  destruct (nth_error lats i) as [x|] eqn:Ex;
    [|apply nth_error_None in Ex; lia].
  destruct (nth_error h i) as [y|] eqn:Ey;
    [|apply nth_error_None in Ey; lia].
  erewrite zip_with_float_nth_error;
    [|exact Ex|rewrite !nth_error_map, Ey; reflexivity].
  destruct Hnan as [H|H]; injection H as ->.
  - destruct x, L; reflexivity.
  - reflexivity.
Qed.

(** With line_length = 0 and no NaN the end points are the points. *)
Lemma zero_length_num (lats lons h : list float) :
  length lats = length h -> length lons = length h ->
  all_num lats = true -> all_num lons = true -> all_num h = true ->
  Ieee.end_lats lats (Num 0) (Ieee.heading_rad h) = inr lats /\
  Ieee.end_lons lons (Num 0) (Ieee.heading_rad h) = inr lons.
Proof.
  intros La Lo Na No Nh.
  destruct (all_num_reals lats Na) as [lr ->].
  destruct (all_num_reals lons No) as [orr ->].
  destruct (all_num_reals h Nh) as [hr ->].
  rewrite !length_map in La, Lo.
  rewrite heading_rad_reals.
  destruct (end_points_reals lr orr 0 (TrackViz.heading_rad hr)) as [-> ->].
  destruct (zero_length_any lr orr hr La Lo) as [-> ->].
  split; reflexivity.
Qed.
End NanFacts.

(** C6, as stated, fails: a row whose heading is NaN (a missing cell)
    gets NaN end points with line_length = 0, not the point itself. *)
Lemma nan_heading_gives_nan_end :
  Ieee.end_lats [Ieee.Num 0] (Ieee.Num 0) (Ieee.heading_rad [Ieee.NaN]) =
    inr [Ieee.NaN] /\
  Ieee.end_lons [Ieee.Num 0] (Ieee.Num 0) (Ieee.heading_rad [Ieee.NaN]) =
    inr [Ieee.NaN] /\
  Ieee.end_lats [Ieee.Num 0] (Ieee.Num 0) (Ieee.heading_rad [Ieee.NaN]) <>
    inr [Ieee.Num 0] /\
  Ieee.end_lons [Ieee.Num 0] (Ieee.Num 0) (Ieee.heading_rad [Ieee.NaN]) <>
    inr [Ieee.Num 0].
Proof.
  repeat split; try reflexivity; intros H; discriminate H.
Qed.

(** C6, amended: for latitudes, longitudes and headings that are all
    numbers (no NaN), line_length = 0 gives end_lats = lats and
    end_lons = lons, both for the headings as recorded
    ([plot_with_custom_settings]) and for the shifted headings
    ([load_and_plot_gps_track]). *)
Theorem zero_length_segment_without_nan (lats lons headings : list Ieee.float) :
  length lats = length headings -> length lons = length headings ->
  Ieee.all_num lats = true -> Ieee.all_num lons = true ->
  Ieee.all_num headings = true ->
  (Ieee.end_lats lats (Ieee.Num 0) (Ieee.heading_rad headings) = inr lats /\
   Ieee.end_lons lons (Ieee.Num 0) (Ieee.heading_rad headings) = inr lons) /\
  (forall shifted,
     Ieee.shifted_headings headings = inr shifted ->
     Ieee.end_lats lats (Ieee.Num 0) (Ieee.heading_rad shifted) = inr lats /\
     Ieee.end_lons lons (Ieee.Num 0) (Ieee.heading_rad shifted) = inr lons).
Proof.
  intros La Lo Na No Nh. split; [apply zero_length_num; assumption|].
  intros shifted Hs.
  destruct (shifted_headings_float_num headings shifted Hs Nh) as [Ns Ls].
  apply zero_length_num; try assumption; congruence.
Qed.

Lemma zero_length_segment_without_nan_witness :
  (Ieee.end_lats [Ieee.Num 0; Ieee.Num 1] (Ieee.Num 0)
     (Ieee.heading_rad [Ieee.Num 0; Ieee.Num 90]) =
     inr [Ieee.Num 0; Ieee.Num 1] /\
   Ieee.end_lons [Ieee.Num 5; Ieee.Num 7] (Ieee.Num 0)
     (Ieee.heading_rad [Ieee.Num 0; Ieee.Num 90]) =
     inr [Ieee.Num 5; Ieee.Num 7]) /\
  (forall shifted,
     Ieee.shifted_headings [Ieee.Num 0; Ieee.Num 90] = inr shifted ->
     Ieee.end_lats [Ieee.Num 0; Ieee.Num 1] (Ieee.Num 0)
       (Ieee.heading_rad shifted) = inr [Ieee.Num 0; Ieee.Num 1] /\
     Ieee.end_lons [Ieee.Num 5; Ieee.Num 7] (Ieee.Num 0)
       (Ieee.heading_rad shifted) = inr [Ieee.Num 5; Ieee.Num 7]).
Proof.
  apply (zero_length_segment_without_nan
           [Ieee.Num 0; Ieee.Num 1] [Ieee.Num 5; Ieee.Num 7]
           [Ieee.Num 0; Ieee.Num 90]); reflexivity.
Defined.

(** ** The two-row example *)

Section TwoRows.
Import TrackViz Examples.
Local Open Scope R_scope.

Lemma radians_of_east : (90 - 90) * PI / 180 = 0.
Proof. lra. Qed.

Lemma two_row_shifted : shifted_headings [0; 90] = inr [90; 90].
Proof. apply (shifted_headings_snoc [0] 90). Qed.

Lemma two_row_end_lats : end_lats [0; 1] 1 (heading_rad [90; 90]) = inr [0; 1].
Proof.
  rewrite end_lats_same_length by reflexivity. simpl.
  rewrite radians_of_east, sin_0. do 2 f_equal; [lra|]. f_equal. lra.
Qed.

Lemma two_row_end_lons : end_lons [0; 1] 1 (heading_rad [90; 90]) = inr [1; 2].
Proof.
  rewrite end_lons_same_length by reflexivity. simpl.
  rewrite radians_of_east, cos_0. do 2 f_equal; [lra|]. f_equal. lra.
Qed.
End TwoRows.

(** C5, as stated, fails: row 0 is drawn with heading 90 (east), so its
    segment ends at (lat 0, lon 1), a full unit away from (lat 1, lon 0). *)
Lemma two_row_example_row0_not_north : ~ Examples.two_row_example_as_stated.
Proof.
  intros [elats [elons [_ [Ha [Ho [H _]]]]]].
  rewrite two_row_end_lats in Ha. injection Ha as <-.
  unfold Examples.close in H. simpl in H.
  unfold Rabs in H. destruct (Rcase_abs (0 - 1)) in H; lra.
Qed.

(** C5, amended: for lats [0, 1], lons [0, 1], courses [0, 90] and
    line_length 1 the shifted headings are [90, 90], row 0's segment ends
    at (lat 0, lon 1) and row 1's at (lat 1, lon 2). *)
Theorem two_rows_drawn_east :
  TrackViz.shifted_headings [0; 90]%R = inr [90; 90]%R /\
  TrackViz.end_lats [0; 1]%R 1 (TrackViz.heading_rad [90; 90]%R) = inr [0; 1]%R /\
  TrackViz.end_lons [0; 1]%R 1 (TrackViz.heading_rad [90; 90]%R) = inr [1; 2]%R.
Proof.
  split; [exact two_row_shifted|].
  split; [exact two_row_end_lats | exact two_row_end_lons].
Qed.

(** ** Running the entry points *)

Section MonadFacts.
Context {A B : Type}.

Lemma bind_value (t : list event) (a : A) (k : A -> M B) :
  bind (t, inr a) k = (t ++ fst (k a), snd (k a)).
Proof. reflexivity. Qed.

Lemma bind_raise (t : list event) (e : exn) (k : A -> M B) :
  bind (t, inl e) k = (t, inl e).
Proof. reflexivity. Qed.

Lemma bind_lift_value (a : A) (k : A -> M B) : bind (lift (inr a)) k = k a.
Proof. unfold bind, lift. simpl. destruct (k a); reflexivity. Qed.

Lemma bind_lift_raise (e : exn) (k : A -> M B) :
  bind (lift (inl e)) k = ([], inl e).
Proof. reflexivity. Qed.
End MonadFacts.

Lemma bind_emit {B : Type} (e : event) (k : unit -> M B) :
  bind (emit e) k = (e :: fst (k tt), snd (k tt)).
Proof. reflexivity. Qed.

Lemma for_each_emits (l : list nat) (body : nat -> M unit) (ev : nat -> event) :
  (forall i, In i l -> body i = ([ev i], inr tt)) ->
  for_each l body = (map ev l, inr tt).
Proof.
  induction l as [|i l IH]; intros H; [reflexivity|].
  simpl. rewrite (H i) by (left; reflexivity).
  rewrite bind_value, IH by (intros j Hj; apply H; right; exact Hj).
  reflexivity.
Qed.

(** The heading lines, one per index, when the four arrays are as long as
    [lats]. *)
Lemma heading_lines_run (ax : nat) (color : string)
    (lons lats elons elats : list R) :
  length lons = length lats -> length elons = length lats ->
  length elats = length lats ->
  TrackViz.heading_lines ax color lons lats elons elats =
  (map (fun i => Plot ax [nth i lons 0%R; nth i elons 0%R]
                         [nth i lats 0%R; nth i elats 0%R] color)
       (seq 0 (length lats)),
   inr tt).
Proof.
  intros H1 H2 H3. unfold TrackViz.heading_lines.
  apply for_each_emits. intros i Hi. apply in_seq in Hi.
  rewrite (getitem_nat lons i (nth i lons 0%R))
    by (apply nth_error_nth'; lia).
  rewrite bind_lift_value.
  rewrite (getitem_nat elons i (nth i elons 0%R))
    by (apply nth_error_nth'; lia).
  rewrite bind_lift_value.
  rewrite (getitem_nat lats i (nth i lats 0%R))
    by (apply nth_error_nth'; lia).
  rewrite bind_lift_value.
  rewrite (getitem_nat elats i (nth i elats 0%R))
    by (apply nth_error_nth'; lia).
  rewrite bind_lift_value. reflexivity.
Qed.

Section TableFacts.
Lemma column_index_In (name : string) (cols : list string) :
  In name cols -> exists j, Pd.column_index name cols = Some j.
Proof.
  induction cols as [|c cols IH]; intros H; [destruct H|].
  simpl. destruct (String.eqb name c) eqn:E; [eexists; reflexivity|].
  destruct H as [H|H].
  - subst c. rewrite String.eqb_refl in E. discriminate.
  - destruct (IH H) as [j ->]. eexists; reflexivity.
Qed.

Lemma getitem_In (df : Pd.DataFrame) (name : string) :
  In name (Pd.columns df) ->
  exists a, Pd.getitem df (Some name) = inr a.
Proof.
  intros H. destruct (column_index_In _ _ H) as [j Hj].
  unfold Pd.getitem. rewrite Hj. eexists; reflexivity.
Qed.

Lemma getitem_length (df : Pd.DataFrame) (key : option string) (a : list R) :
  Pd.getitem df key = inr a -> length a = Pd.len df.
Proof.
  unfold Pd.getitem, Pd.len. destruct key as [name|]; [|discriminate].
  destruct (Pd.column_index name (Pd.columns df)); [|discriminate].
  intros H. injection H as <-. apply length_map.
Qed.

Lemma getitem_None (df : Pd.DataFrame) :
  Pd.getitem df None = inl (KeyError None).
Proof. reflexivity. Qed.
End TableFacts.

Section RectangularTables.
Lemma column_index_lt (name : string) (cols : list string) (j : nat) :
  Pd.column_index name cols = Some j -> j < length cols.
Proof.
  revert j; induction cols as [|c cols IH]; intros j H; [discriminate|].
  simpl in H. destruct (String.eqb name c).
  - injection H as <-. simpl. lia.
  - destruct (Pd.column_index name cols) as [k|]; [|discriminate].
    injection H as <-. simpl. apply -> Nat.succ_lt_mono. apply IH. reflexivity.
Qed.

(** Every value read for a column is the cell of its row in that
    column. *)
Lemma getitem_reads_cells (df : Pd.DataFrame) (name : string) (a : list R) :
  Pd.getitem df (Some name) = inr a ->
  exists j,
    Pd.column_index name (Pd.columns df) = Some j /\
    forall i row, nth_error (Pd.rows df) i = Some row ->
                  exists v, nth_error row j = Some v /\ nth_error a i = Some v.
Proof.
  unfold Pd.getitem.
  destruct (Pd.column_index name (Pd.columns df)) as [j|] eqn:Ej;
    [|discriminate].
  intros H. injection H as <-. exists j. split; [reflexivity|].
  intros i row Hrow.
  pose proof (Pd.rectangular df) as Hrect.
  rewrite forallb_forall in Hrect.
  pose proof (Hrect row (nth_error_In _ _ Hrow)) as Hlen.
  apply Nat.eqb_eq in Hlen.
  exists (nth j row 0%R). split.
  - apply nth_error_nth'. rewrite Hlen. apply (column_index_lt name). exact Ej.
  - rewrite nth_error_map, Hrow. reflexivity.
Qed.
End RectangularTables.

Section ResolvedColumns.
Import PyStr Resolver.

Lemma find_all_false (p : string -> bool) (l : list string) :
  (forall x, In x l -> p x = false) -> find p l = None.
Proof.
  induction l as [|x l IH]; intros H; [reflexivity|].
  simpl. rewrite (H x) by (left; reflexivity).
  apply IH. intros y Hy. apply H. right. exact Hy.
Qed.

Lemma last_match_all_false (p : string -> bool) (cols : list string) :
  (forall col, In col cols -> p col = false) -> last_match p cols = None.
Proof.
  intros H. unfold last_match. apply find_all_false.
  intros x Hx. apply H. apply in_rev. exact Hx.
Qed.

(** A column that matched a category has a non-empty name. *)
Lemma strict_match_nonempty (c : category) (col : string) :
  matches strict_category c col = true -> col <> "".
Proof. intros H ->. destruct c; discriminate H. Qed.

Lemma resolved_strict_In (cols : list string) (c : category) (col : string) :
  get (resolve_strict cols) c = Some col -> In col cols /\ col <> "".
Proof.
  rewrite resolve_strict_get. intros H.
  apply last_match_some in H. destruct H as [Hin Hm].
  split; [exact Hin | exact (strict_match_nonempty c col Hm)].
Qed.

Lemma resolved_permissive_In (cols : list string) (c : category) (col : string) :
  get (resolve_permissive cols) c = Some col -> In col cols.
Proof.
  rewrite resolve_permissive_get. intros H.
  apply last_match_some in H. exact (proj1 H).
Qed.

Lemma truthy_Some (col : string) : col <> "" -> truthy (Some col) = true.
Proof.
  intros H. simpl. destruct (String.eqb_spec col ""); [contradiction|reflexivity].
Qed.

(** The test [all([lat_col, lon_col, heading_col])] succeeds exactly
    when the three variables were assigned. *)
Lemma all_resolved_strict (cols : list string) :
  all_resolved (resolve_strict cols) = true <->
  (lat_col (resolve_strict cols) <> None /\
   lon_col (resolve_strict cols) <> None /\
   heading_col (resolve_strict cols) <> None).
Proof.
  unfold all_resolved. split.
  - intros H. apply andb_true_iff in H. destruct H as [H H3].
    apply andb_true_iff in H. destruct H as [H1 H2].
    repeat split; intros E; rewrite E in *; discriminate.
  - intros [H1 [H2 H3]].
    pose proof (resolved_strict_In cols Latitude) as R1.
    pose proof (resolved_strict_In cols Longitude) as R2.
    pose proof (resolved_strict_In cols Heading) as R3.
    simpl in R1, R2, R3.
    destruct (lat_col (resolve_strict cols)) as [a|]; [|contradiction].
    destruct (lon_col (resolve_strict cols)) as [b|]; [|contradiction].
    destruct (heading_col (resolve_strict cols)) as [c|]; [|contradiction].
    rewrite !truthy_Some; [reflexivity| | |].
    + exact (proj2 (R3 c eq_refl)).
    + exact (proj2 (R2 b eq_refl)).
    + exact (proj2 (R1 a eq_refl)).
Qed.
End ResolvedColumns.

Section Runs.
Import Resolver TrackViz.
Variable read_csv : string -> exn + Pd.DataFrame.
Variable hist_raises : list R -> nat -> option (R * R) -> option exn.

Lemma bind_value_eq {A B : Type} (t t' : list event) (a : A)
    (k : A -> M B) (r : exn + B) :
  k a = (t', r) -> bind (t, inr a) k = (t ++ t', r).
Proof. intros H. rewrite bind_value, H. reflexivity. Qed.

Lemma bind_emit_eq {B : Type} (e : event) (t' : list event)
    (k : unit -> M B) (r : exn + B) :
  k tt = (t', r) -> bind (emit e) k = (e :: t', r).
Proof. intros H. rewrite bind_emit, H. reflexivity. Qed.

Ltac run_step :=
  lazymatch goal with
  | |- bind (lift (inr _)) _ = _ => rewrite bind_lift_value
  | |- bind (print _) _ = _ => unfold print at 1; apply bind_emit_eq
  | |- bind (emit _) _ = _ => apply bind_emit_eq
  | |- bind (_, inr _) _ = _ => apply bind_value_eq
  end.

Lemma min_cons (x : R) (a : list R) : Np.min (x :: a) = inr (fold_left Rmin a x).
Proof. reflexivity. Qed.

Lemma max_cons (x : R) (a : list R) : Np.max (x :: a) = inr (fold_left Rmax a x).
Proof. reflexivity. Qed.

(** The run of [load_and_plot_gps_track] once every intermediate array
    is known. *)
Lemma load_and_plot_gps_track_run (csv_file : string) (line_length : R)
    (df : Pd.DataFrame) (lats lons headings shifted elats elons : list R)
    (lat_lo lat_hi lon_lo lon_hi h_lo h_hi : R) :
  let m := resolve_strict (Pd.columns df) in
  read_csv csv_file = inr df ->
  all_resolved m = true ->
  Pd.getitem df (lat_col m) = inr lats ->
  Pd.getitem df (lon_col m) = inr lons ->
  Pd.getitem df (heading_col m) = inr headings ->
  shifted_headings headings = inr shifted ->
  end_lats lats line_length (heading_rad shifted) = inr elats ->
  end_lons lons line_length (heading_rad shifted) = inr elons ->
  length lons = length lats -> length elons = length lats ->
  length elats = length lats ->
  Np.min lats = inr lat_lo -> Np.max lats = inr lat_hi ->
  Np.min lons = inr lon_lo -> Np.max lons = inr lon_hi ->
  Np.min headings = inr h_lo -> Np.max headings = inr h_hi ->
  load_and_plot_gps_track read_csv csv_file line_length =
  (Print (Loaded (Pd.len df)) ::
   Print (Columns (Pd.columns df)) ::
   Print (Preview (Pd.head df)) ::
   Subplots 1 1 ::
   Scatter 0 lons lats "red" (1 / 10)%R ::
   map (fun i => Plot 0 [nth i lons 0%R; nth i elons 0%R]
                        [nth i lats 0%R; nth i elats 0%R] "blue")
       (seq 0 (length lats)) ++
   Plot 0 lons lats "gray" ::
   Print (Text (String "010"%char "Track Statistics:")) ::
   Print (Range "Latitude" lat_lo lat_hi) ::
   Print (Range "Longitude" lon_lo lon_hi) ::
   Print (Range "Heading" h_lo h_hi) ::
   [Show],
   inr (Some df)).
Proof.
  intros m Hload Hall Hlat Hlon Hhead Hsh Hel Heo L1 L2 L3
         M1 M2 M3 M4 M5 M6.
  subst m. unfold load_and_plot_gps_track. rewrite Hload.
  do 3 (run_step; cbv beta).
  cbv zeta. rewrite Hall. simpl negb. cbv iota.
  rewrite Hlat. run_step. cbv beta.
  rewrite Hlon. run_step. cbv beta.
  rewrite Hhead. run_step. cbv beta.
  rewrite Hsh. run_step. cbv beta.
  rewrite Hel. run_step. cbv beta.
  rewrite Heo. run_step. cbv beta.
  do 2 (run_step; cbv beta).
  rewrite heading_lines_run by assumption.
  run_step. cbv beta.
  do 2 (run_step; cbv beta).
  rewrite M1. run_step. cbv beta. rewrite M2. run_step. cbv beta.
  run_step. cbv beta.
  rewrite M3. run_step. cbv beta. rewrite M4. run_step. cbv beta.
  run_step. cbv beta.
  rewrite M5. run_step. cbv beta. rewrite M6. run_step. cbv beta.
  run_step. cbv beta.
  run_step. reflexivity.
Qed.

(** The run of [plot_with_custom_settings] once the three columns are
    known: the figure calls up to the histogram, then what the histogram
    call does. *)
Lemma plot_with_custom_settings_run (csv_file : string)
    (line_length point_size : R) (line_color point_color : string)
    (df : Pd.DataFrame) (lats lons headings elats elons : list R) :
  let m := resolve_permissive (Pd.columns df) in
  read_csv csv_file = inr df ->
  Pd.getitem df (lat_col m) = inr lats ->
  Pd.getitem df (lon_col m) = inr lons ->
  Pd.getitem df (heading_col m) = inr headings ->
  end_lats lats line_length (heading_rad headings) = inr elats ->
  end_lons lons line_length (heading_rad headings) = inr elons ->
  length lons = length lats -> length elons = length lats ->
  length elats = length lats ->
  plot_with_custom_settings read_csv hist_raises csv_file line_length
    point_size line_color point_color =
  (Subplots 1 2 ::
   Scatter 0 lons lats point_color point_size ::
   map (fun i => Plot 0 [nth i lons 0%R; nth i elons 0%R]
                        [nth i lats 0%R; nth i elats 0%R] line_color)
       (seq 0 (length lats)) ++
   Plot 0 lons lats "gray" ::
   Hist 1 headings 36 None ::
   match hist_raises headings 36 None with
   | Some _ => []
   | None => [Show]
   end,
   match hist_raises headings 36 None with
   | Some e => inl e
   | None => inr (Some df)
   end).
Proof.
  intros m Hload Hlat Hlon Hhead Hel Heo L1 L2 L3.
  subst m. unfold plot_with_custom_settings. rewrite Hload.
  run_step. cbv beta zeta.
  rewrite Hlat. run_step. cbv beta.
  rewrite Hlon. run_step. cbv beta.
  rewrite Hhead. run_step. cbv beta.
  rewrite Hel. run_step. cbv beta.
  rewrite Heo. run_step. cbv beta.
  do 2 (run_step; cbv beta).
  rewrite heading_lines_run by assumption.
  run_step. cbv beta.
  run_step; cbv beta.
  unfold hist. destruct (hist_raises headings 36 None) as [e|]; reflexivity.
Qed.
End Runs.

(** ** Column resolution: which match is kept *)

(** C2, as stated, fails: with two latitude columns the variable holds
    the later one, not the first, in both variants. *)
Lemma later_match_overwrites :
  Resolver.first_match (Resolver.matches Resolver.strict_category Resolver.Latitude)
    Examples.two_latitudes = Some "latitude" /\
  Resolver.lat_col (Resolver.resolve_strict Examples.two_latitudes) =
    Some "gps latitude" /\
  Resolver.lat_col (Resolver.resolve_strict Examples.two_latitudes) <>
    Resolver.first_match (Resolver.matches Resolver.strict_category Resolver.Latitude)
      Examples.two_latitudes /\
  Resolver.first_match (Resolver.matches Resolver.permissive_category Resolver.Latitude)
    Examples.two_lats = Some "lat" /\
  Resolver.lat_col (Resolver.resolve_permissive Examples.two_lats) =
    Some "lat_raw" /\
  Resolver.lat_col (Resolver.resolve_permissive Examples.two_lats) <>
    Resolver.first_match (Resolver.matches Resolver.permissive_category Resolver.Latitude)
      Examples.two_lats.
Proof.
  repeat split; try (vm_compute; reflexivity); vm_compute; discriminate.
Qed.

(** C2, amended: in both variants each category resolves to the last
    column, in scan order, that takes the category's branch; earlier
    matches are overwritten. *)
Theorem resolution_keeps_last_match (c : Resolver.category) :
  (forall columns,
     Resolver.get (Resolver.resolve_strict columns) c =
       Resolver.last_match (Resolver.matches Resolver.strict_category c) columns /\
     Resolver.get (Resolver.resolve_permissive columns) c =
       Resolver.last_match (Resolver.matches Resolver.permissive_category c) columns) /\
  (forall before col after,
     Resolver.matches Resolver.strict_category c col = true ->
     (forall x, In x after -> Resolver.matches Resolver.strict_category c x = false) ->
     Resolver.get (Resolver.resolve_strict (before ++ col :: after)) c = Some col) /\
  (forall before col after,
     Resolver.matches Resolver.permissive_category c col = true ->
     (forall x, In x after -> Resolver.matches Resolver.permissive_category c x = false) ->
     Resolver.get (Resolver.resolve_permissive (before ++ col :: after)) c = Some col).
Proof.
  assert (Hlast : forall (p : string -> bool) before col after,
             p col = true -> (forall x, In x after -> p x = false) ->
             Resolver.last_match p (before ++ col :: after) = Some col).
  { intros p before col after Hc Ha. unfold Resolver.last_match.
    rewrite rev_app_distr. simpl. rewrite <- !app_assoc. simpl.
    induction (rev after) as [|x l IH] eqn:E in after, Ha |- *.
    - simpl. rewrite Hc. reflexivity.
    - simpl. rewrite (Ha x) by (apply in_rev; rewrite E; left; reflexivity).
      apply (IH (rev l)); [|apply rev_involutive].
      intros y Hy. apply Ha. apply in_rev. rewrite E. right.
      apply in_rev. exact Hy. }
  split; [|split].
  - intros columns. split;
      [apply resolve_strict_get | apply resolve_permissive_get].
  - intros before col after Hc Ha.
    rewrite resolve_strict_get. apply Hlast; assumption.
  - intros before col after Hc Ha.
    rewrite resolve_permissive_get. apply Hlast; assumption.
Qed.

Lemma resolution_keeps_last_match_witness :
  Resolver.get
    (Resolver.resolve_strict (["latitude"] ++ "gps latitude" :: ["longitude"; "course"]))
    Resolver.Latitude = Some "gps latitude" /\
  Resolver.get
    (Resolver.resolve_permissive (["lat"] ++ "lat_raw" :: ["lon"; "heading"]))
    Resolver.Latitude = Some "lat_raw".
Proof.
  split.
  - apply (proj1 (proj2 (resolution_keeps_last_match Resolver.Latitude))).
    + reflexivity.
    + intros x [<-|[<-|[]]]; reflexivity.
  - apply (proj2 (proj2 (resolution_keeps_last_match Resolver.Latitude))).
    + reflexivity.
    + intros x [<-|[<-|[]]]; reflexivity.
Defined.

(** C10: in the strict loop the longitude test, "longitude" or "long", is
    the test for "long" alone; a column that does not take the latitude
    branch is assigned to [lon_col] exactly when its lowercased, trimmed
    name contains "long".  The names "long" and "headlong" are. *)
Theorem strict_longitude_is_long (col : string) :
  let col_lower := PyStr.strip (PyStr.lower col) in
  (PyStr.contains "longitude" col_lower || PyStr.contains "long" col_lower =
   PyStr.contains "long" col_lower) /\
  (PyStr.contains "longitude" col_lower = true ->
   PyStr.contains "long" col_lower = true) /\
  (PyStr.contains "latitude" col_lower = false ->
   forall m,
     (PyStr.contains "long" col_lower = true ->
      Resolver.strict_step m col =
      Resolver.Mapping (Resolver.lat_col m) (Some col) (Resolver.heading_col m)) /\
     (PyStr.contains "long" col_lower = false ->
      Resolver.lon_col (Resolver.strict_step m col) = Resolver.lon_col m) /\
     (Resolver.lon_col (Resolver.strict_step Resolver.unresolved col) = Some col <->
      PyStr.contains "long" col_lower = true)) /\
  Resolver.lon_col (Resolver.resolve_strict ["long"]) = Some "long" /\
  Resolver.lon_col (Resolver.resolve_strict ["headlong"]) = Some "headlong".
Proof.
  intros col_lower.
  split; [apply longitude_or_long|].
  split; [apply longitude_contains_long|].
  split; [|split; reflexivity].
  intros Hlat m. unfold Resolver.strict_step. fold col_lower.
  rewrite Hlat, longitude_or_long.
  destruct (PyStr.contains "long" col_lower) eqn:Hlong.
  - split; [reflexivity|]. split; [discriminate|]. split; reflexivity.
  - split; [discriminate|].
    destruct (PyStr.contains "course" col_lower);
      (split; [reflexivity|]); split; discriminate.
Qed.

Lemma strict_longitude_is_long_witness :
  Resolver.strict_step Resolver.unresolved "Headlong " =
    Resolver.Mapping None (Some "Headlong ") None /\
  Resolver.lon_col (Resolver.strict_step Resolver.unresolved "Course") = None /\
  PyStr.contains "long" (PyStr.strip (PyStr.lower "Longitude (deg)")) = true.
Proof.
  split; [|split].
  - apply (proj1 (proj2 (proj2 (strict_longitude_is_long "Headlong ")))
             eq_refl Resolver.unresolved).
    reflexivity.
  - apply (proj1 (proj2 (proj1 (proj2 (proj2 (strict_longitude_is_long "Course")))
             eq_refl Resolver.unresolved))).
    reflexivity.
  - apply (proj1 (proj2 (strict_longitude_is_long "Longitude (deg)"))).
    reflexivity.
Defined.

(** ** What the entry points return *)

Section Outcomes.
Import Resolver TrackViz.
Variable read_csv : string -> exn + Pd.DataFrame.

(** Once the test of line 39 has passed, the three columns are read. *)
Lemma strict_arrays (df : Pd.DataFrame) :
  let m := resolve_strict (Pd.columns df) in
  all_resolved m = true ->
  exists lats lons headings,
    Pd.getitem df (lat_col m) = inr lats /\
    Pd.getitem df (lon_col m) = inr lons /\
    Pd.getitem df (heading_col m) = inr headings /\
    length lats = Pd.len df /\ length lons = Pd.len df /\
    length headings = Pd.len df.
Proof.
  intros m Hall. apply all_resolved_strict in Hall. fold m in Hall.
  destruct Hall as [H1 [H2 H3]].
  pose proof (resolved_strict_In (Pd.columns df) Latitude) as R1.
  pose proof (resolved_strict_In (Pd.columns df) Longitude) as R2.
  pose proof (resolved_strict_In (Pd.columns df) Heading) as R3.
  simpl in R1, R2, R3. fold m in R1, R2, R3.
  destruct (lat_col m) as [a|]; [|contradiction].
  destruct (lon_col m) as [b|]; [|contradiction].
  destruct (heading_col m) as [c|]; [|contradiction].
  destruct (getitem_In df a (proj1 (R1 a eq_refl))) as [lats Ha].
  destruct (getitem_In df b (proj1 (R2 b eq_refl))) as [lons Hb].
  destruct (getitem_In df c (proj1 (R3 c eq_refl))) as [headings Hc].
  exists lats, lons, headings.
  repeat split; try assumption; eapply getitem_length; eassumption.
Qed.

(** The whole run of [load_and_plot_gps_track] on a table with at least
    one row whose three columns are resolved. *)
Lemma load_and_plot_gps_track_success (csv_file : string) (line_length : R)
    (df : Pd.DataFrame) :
  let m := resolve_strict (Pd.columns df) in
  read_csv csv_file = inr df ->
  all_resolved m = true ->
  Pd.rows df <> [] ->
  exists lats lons headings shifted elats elons post,
    Pd.getitem df (lat_col m) = inr lats /\
    Pd.getitem df (lon_col m) = inr lons /\
    Pd.getitem df (heading_col m) = inr headings /\
    length lats = Pd.len df /\ length lons = Pd.len df /\
    length headings = Pd.len df /\
    shifted_headings headings = inr shifted /\
    end_lats lats line_length (heading_rad shifted) = inr elats /\
    end_lons lons line_length (heading_rad shifted) = inr elons /\
    load_and_plot_gps_track read_csv csv_file line_length =
    (Print (Loaded (Pd.len df)) ::
     Print (Columns (Pd.columns df)) ::
     Print (Preview (Pd.head df)) ::
     Subplots 1 1 ::
     Scatter 0 lons lats "red" (1 / 10)%R ::
     map (fun i => Plot 0 [nth i lons 0%R; nth i elons 0%R]
                          [nth i lats 0%R; nth i elats 0%R] "blue")
         (seq 0 (Pd.len df)) ++
     Plot 0 lons lats "gray" :: post,
     inr (Some df)).
Proof.
  intros m Hload Hall Hrows.
  destruct (strict_arrays df Hall) as
      [lats [lons [headings [Ha [Hb [Hc [La [Lb Lc]]]]]]]].
  fold m in Ha, Hb, Hc.
  assert (Hn : Pd.len df <> 0).
  { unfold Pd.len. destruct (Pd.rows df); [contradiction|discriminate]. }
  destruct (shifted_headings_indexed headings) as [shifted [Hs [Ls _]]].
  { intros ->. simpl in Lc. congruence. }
  destruct (end_points_indexed lats lons shifted line_length) as
      [elats [elons [He [Ho [Le [Lo _]]]]]]; try congruence.
  destruct lats as [|x1 lats']; [simpl in La; congruence|].
  destruct lons as [|x2 lons']; [simpl in Lb; congruence|].
  destruct headings as [|x3 headings']; [simpl in Lc; congruence|].
  exists (x1 :: lats'), (x2 :: lons'), (x3 :: headings'), shifted, elats, elons.
  eexists. repeat (split; [eassumption|]).
  replace (seq 0 (Pd.len df)) with (seq 0 (length (x1 :: lats')))
    by (f_equal; exact La).
  apply (load_and_plot_gps_track_run read_csv csv_file line_length df
           (x1 :: lats') (x2 :: lons') (x3 :: headings') shifted elats elons);
    try assumption; try congruence; reflexivity.
Qed.

(** The test of line 39 fails as soon as one variable is unassigned. *)
Lemma all_resolved_false (m : mapping) :
  lat_col m = None \/ lon_col m = None \/ heading_col m = None ->
  all_resolved m = false.
Proof.
  unfold all_resolved. intros [H|[H|H]]; rewrite H; simpl.
  - reflexivity.
  - rewrite andb_false_r. reflexivity.
  - apply andb_false_r.
Qed.
End Outcomes.

(** C7: [load_and_plot_gps_track] prints an error and returns None when
    the file cannot be loaded; prints the two error lines and returns
    None, whatever the rows and before any array is read or any figure
    call is made, when one of the three columns is unresolved; and
    returns the loaded table when the three columns are resolved and the
    table has a row. *)
Theorem load_and_plot_gps_track_returns
    (read_csv : string -> exn + Pd.DataFrame) (csv_file : string)
    (line_length : R) :
  (forall e,
     read_csv csv_file = inl e ->
     TrackViz.load_and_plot_gps_track read_csv csv_file line_length =
     ([Print (LoadFailed e)], inr None)) /\
  (forall df,
     read_csv csv_file = inr df ->
     (Resolver.lat_col (Resolver.resolve_strict (Pd.columns df)) = None \/
      Resolver.lon_col (Resolver.resolve_strict (Pd.columns df)) = None \/
      Resolver.heading_col (Resolver.resolve_strict (Pd.columns df)) = None) ->
     TrackViz.load_and_plot_gps_track read_csv csv_file line_length =
     ([Print (Loaded (Pd.len df));
       Print (Columns (Pd.columns df));
       Print (Preview (Pd.head df));
       Print (Text "Error: Could not find required columns (latitude, longitude, course)");
       Print (Available (Pd.columns df))],
      inr None)) /\
  (forall df,
     read_csv csv_file = inr df ->
     (Resolver.lat_col (Resolver.resolve_strict (Pd.columns df)) <> None /\
      Resolver.lon_col (Resolver.resolve_strict (Pd.columns df)) <> None /\
      Resolver.heading_col (Resolver.resolve_strict (Pd.columns df)) <> None) ->
     Pd.rows df <> [] ->
     snd (TrackViz.load_and_plot_gps_track read_csv csv_file line_length) =
     inr (Some df)).
Proof.
  split; [|split].
  - intros e H. unfold TrackViz.load_and_plot_gps_track. rewrite H. reflexivity.
  - intros df H Hnone. unfold TrackViz.load_and_plot_gps_track. rewrite H.
    cbv zeta. rewrite (all_resolved_false _ Hnone). reflexivity.
  - intros df H Hall Hrows. apply all_resolved_strict in Hall.
    destruct (load_and_plot_gps_track_success read_csv csv_file line_length
                df H Hall Hrows)
      as [lats [lons [hs [sh [el [eo [post [_ [_ [_ [_ [_ [_ [_ [_ [_ Hrun]]]]]]]]]]]]]]]].
    rewrite Hrun. reflexivity.
Qed.

Lemma load_and_plot_gps_track_returns_witness :
  TrackViz.load_and_plot_gps_track (fun _ => inl (LoadError "No such file"))
    "missing.csv" 1 =
  ([Print (LoadFailed (LoadError "No such file"))], inr None) /\
  snd (TrackViz.load_and_plot_gps_track (fun _ => inr Examples.unrecognised_table)
         "xyz.csv" 1) = inr None /\
  snd (TrackViz.load_and_plot_gps_track (fun _ => inr Examples.strict_table)
         "track.csv" 1) = inr (Some Examples.strict_table).
Proof.
  split; [|split].
  - apply (proj1 (load_and_plot_gps_track_returns
                    (fun _ => inl (LoadError "No such file")) "missing.csv" 1)).
    reflexivity.
  - rewrite (proj1 (proj2 (load_and_plot_gps_track_returns
                    (fun _ => inr Examples.unrecognised_table) "xyz.csv" 1))
               Examples.unrecognised_table eq_refl).
    + reflexivity.
    + left. reflexivity.
  - apply (proj2 (proj2 (load_and_plot_gps_track_returns
                    (fun _ => inr Examples.strict_table) "track.csv" 1))).
    + reflexivity.
    + repeat split; vm_compute; discriminate.
    + discriminate.
Defined.

(** With no rows the strict entry point does not return: the assignment
    of line 56 indexes an empty array. *)
Lemma load_and_plot_gps_track_no_rows
    (read_csv : string -> exn + Pd.DataFrame) (csv_file : string)
    (line_length : R) (df : Pd.DataFrame) :
  read_csv csv_file = inr df ->
  Resolver.all_resolved (Resolver.resolve_strict (Pd.columns df)) = true ->
  Pd.rows df = [] ->
  snd (TrackViz.load_and_plot_gps_track read_csv csv_file line_length) =
  inl IndexError.
Proof.
  intros Hload Hall Hrows.
  destruct (strict_arrays df Hall) as
      [lats [lons [headings [Ha [Hb [Hc [La [Lb Lc]]]]]]]].
  unfold Pd.len in La, Lb, Lc. rewrite Hrows in La, Lb, Lc.
  apply length_zero_iff_nil in La, Lb, Lc. subst lats lons headings.
  unfold TrackViz.load_and_plot_gps_track. rewrite Hload.
  cbv zeta. rewrite Hall. simpl negb. cbv iota.
  rewrite Ha, Hb, Hc. reflexivity.
Qed.

(** C8: when one of the three categories has no matching column,
    [plot_with_custom_settings] prints nothing and returns nothing: the
    lookup [df[None]] raises a KeyError that leaves the function. *)
Theorem custom_missing_column_raises
    (read_csv : string -> exn + Pd.DataFrame)
    (hist_raises : list R -> nat -> option (R * R) -> option exn)
    (csv_file : string)
    (line_length point_size : R) (line_color point_color : string)
    (df : Pd.DataFrame) (c : Resolver.category) :
  read_csv csv_file = inr df ->
  (forall col, In col (Pd.columns df) ->
               Resolver.matches Resolver.permissive_category c col = false) ->
  TrackViz.plot_with_custom_settings read_csv hist_raises csv_file line_length point_size
    line_color point_color = ([], inl (KeyError None)).
Proof.
  intros Hload Hnone.
  assert (Hget : Resolver.get (Resolver.resolve_permissive (Pd.columns df)) c = None).
  { rewrite resolve_permissive_get. apply last_match_all_false. exact Hnone. }
  pose proof (resolved_permissive_In (Pd.columns df) Resolver.Latitude) as R1.
  pose proof (resolved_permissive_In (Pd.columns df) Resolver.Longitude) as R2.
  pose proof (resolved_permissive_In (Pd.columns df) Resolver.Heading) as R3.
  unfold TrackViz.plot_with_custom_settings.
  rewrite Hload, bind_lift_value. cbv zeta.
  simpl in R1, R2, R3.
  destruct (Resolver.lat_col _) as [a|] eqn:Ea; [|reflexivity].
  destruct (getitem_In df a (R1 a eq_refl)) as [lats ->].
  rewrite bind_lift_value.
  destruct (Resolver.lon_col _) as [b|] eqn:Eb; [|reflexivity].
  destruct (getitem_In df b (R2 b eq_refl)) as [lons ->].
  rewrite bind_lift_value.
  destruct (Resolver.heading_col _) as [h|] eqn:Eh; [|reflexivity].
  destruct c; simpl in Hget; congruence.
Qed.

Lemma custom_missing_column_raises_witness :
  TrackViz.plot_with_custom_settings (fun _ => inr Examples.unrecognised_table)
            (fun _ _ _ => None)
    "xyz.csv" 1 20 "blue" "red" = ([], inl (KeyError None)).
Proof.
  apply (custom_missing_column_raises (fun _ => inr Examples.unrecognised_table)
           (fun _ _ _ => None) "xyz.csv" 1 20 "blue" "red" Examples.unrecognised_table
           Resolver.Heading).
  - reflexivity.
  - intros col [<-|[<-|[<-|[]]]]; reflexivity.
Defined.

(** ** Which heading each point is drawn with *)

Section Drawn.
Import Resolver TrackViz Examples.
Local Open Scope R_scope.

(** The lines of the loop, read as segments of the headings [h]. *)
Lemma lines_are_segments (ax : nat) (color : string)
    (lats lons h elats elons : list R) (L : R) :
  length lats = length h -> length lons = length h ->
  end_lats lats L (heading_rad h) = inr elats ->
  end_lons lons L (heading_rad h) = inr elons ->
  map (fun i => Plot ax [nth i lons 0; nth i elons 0]
                        [nth i lats 0; nth i elats 0] color)
      (seq 0 (length h)) =
  map (fun i => segment ax color (nth i lats 0) (nth i lons 0) L (nth i h 0))
      (seq 0 (length h)).
Proof.
  intros Ha Ho Hel Heo.
  destruct (end_points_indexed lats lons h L Ha Ho) as
      [elats' [elons' [H1 [H2 [_ [_ H5]]]]]].
  rewrite Hel in H1. injection H1 as <-.
  rewrite Heo in H2. injection H2 as <-.
  apply map_ext_in. intros i Hi. apply in_seq in Hi.
  destruct (H5 i (nth i lats 0) (nth i lons 0) (nth i h 0)) as [Hx Hy];
    try (apply nth_error_nth'; lia).
  unfold segment.
  rewrite (nth_error_nth _ _ 0 Hx), (nth_error_nth _ _ 0 Hy). reflexivity.
Qed.

Lemma nth_error_map_seq {A : Type} (f : nat -> A) (n i : nat) :
  (i < n)%nat -> nth_error (map f (seq 0 n)) i = Some (f i).
Proof.
  intros H. rewrite nth_error_map.
  rewrite (nth_error_nth' (seq 0 n) 0%nat) by (rewrite length_seq; exact H).
  rewrite seq_nth by exact H. reflexivity.
Qed.

(** The figure calls of [plot_with_custom_settings] on the two-row
    table, line_length 1. *)
Lemma permissive_table_trace :
  fst (plot_with_custom_settings (fun _ => inr permissive_table)
            (fun _ _ _ => None)
         "track.csv" 1 20 "blue" "red") =
  [Subplots 1 2;
   Scatter 0 [0; 1] [0; 1] "red" 20;
   segment 0 "blue" 0 0 1 0;
   segment 0 "blue" 1 1 1 90;
   Plot 0 [0; 1] [0; 1] "gray";
   Hist 1 [0; 90] 36 None;
   Show].
Proof.
  erewrite (plot_with_custom_settings_run (fun _ => inr permissive_table)
              (fun _ _ _ => None) "track.csv" 1 20 "blue" "red" permissive_table
              [0; 1] [0; 1] [0; 90]);
    try reflexivity.
  reflexivity.
Qed.

Lemma north_is_not_east :
  segment 0 "blue" 0 0 1 0 <> segment 0 "blue" 0 0 1 90.
Proof.
  unfold segment. intros H. injection H as H _.
  replace ((90 - 0) * PI / 180) with (PI / 2) in H by lra.
  replace ((90 - 90) * PI / 180) with 0 in H by lra.
  rewrite cos_PI2, cos_0 in H. lra.
Qed.
End Drawn.

(** C3, as stated, fails for [plot_with_custom_settings]: on the two-row
    table with headings 0 and 90, row 0 is drawn with its own heading 0
    (north), not with row 1's heading 90 (east). *)
Lemma custom_row0_drawn_with_own_heading :
  nth_error
    (fst (TrackViz.plot_with_custom_settings (fun _ => inr Examples.permissive_table)
            (fun _ _ _ => None)
            "track.csv" 1 20 "blue" "red")) 2 =
    Some (Examples.segment 0 "blue" 0 0 1 0) /\
  nth_error
    (fst (TrackViz.plot_with_custom_settings (fun _ => inr Examples.permissive_table)
            (fun _ _ _ => None)
            "track.csv" 1 20 "blue" "red")) 2 <>
    Some (Examples.segment 0 "blue" 0 0 1 90).
Proof.
  rewrite permissive_table_trace. split; [reflexivity|].
  intros H. apply north_is_not_east. simpl in H. congruence.
Qed.

(** C3, amended: in [load_and_plot_gps_track], for a track of N >= 2 rows,
    the segment drawn at row i < N-1 is computed from the heading of row
    i+1 and the segment at row N-1 from that row's own heading; in
    [plot_with_custom_settings] the segment drawn at every row is
    computed from that row's own heading. *)
Theorem heading_drawn_per_entry_point
    (read_csv : string -> exn + Pd.DataFrame)
    (hist_raises : list R -> nat -> option (R * R) -> option exn)
    (csv_file : string)
    (line_length point_size : R) (line_color point_color : string)
    (df : Pd.DataFrame) :
  read_csv csv_file = inr df ->
  2 <= Pd.len df ->
  (Resolver.all_resolved (Resolver.resolve_strict (Pd.columns df)) = true ->
   exists lats lons headings segs rest,
     Pd.getitem df (Resolver.lat_col (Resolver.resolve_strict (Pd.columns df)))
       = inr lats /\
     Pd.getitem df (Resolver.lon_col (Resolver.resolve_strict (Pd.columns df)))
       = inr lons /\
     Pd.getitem df (Resolver.heading_col (Resolver.resolve_strict (Pd.columns df)))
       = inr headings /\
     fst (TrackViz.load_and_plot_gps_track read_csv csv_file line_length) =
       Print (Loaded (Pd.len df)) :: Print (Columns (Pd.columns df)) ::
       Print (Preview (Pd.head df)) :: Subplots 1 1 ::
       Scatter 0 lons lats "red" (1 / 10)%R :: segs ++ rest /\
     length segs = Pd.len df /\
     (forall i, i < Pd.len df - 1 ->
        nth_error segs i =
        Some (Examples.segment 0 "blue" (nth i lats 0%R) (nth i lons 0%R)
                line_length (nth (i + 1) headings 0%R))) /\
     nth_error segs (Pd.len df - 1) =
       Some (Examples.segment 0 "blue" (nth (Pd.len df - 1) lats 0%R)
               (nth (Pd.len df - 1) lons 0%R) line_length
               (nth (Pd.len df - 1) headings 0%R))) /\
  (forall lats lons headings,
     Pd.getitem df (Resolver.lat_col (Resolver.resolve_permissive (Pd.columns df)))
       = inr lats ->
     Pd.getitem df (Resolver.lon_col (Resolver.resolve_permissive (Pd.columns df)))
       = inr lons ->
     Pd.getitem df (Resolver.heading_col (Resolver.resolve_permissive (Pd.columns df)))
       = inr headings ->
     exists segs rest,
       fst (TrackViz.plot_with_custom_settings read_csv hist_raises csv_file line_length
              point_size line_color point_color) =
         Subplots 1 2 :: Scatter 0 lons lats point_color point_size ::
         segs ++ rest /\
       length segs = Pd.len df /\
       forall i, i < Pd.len df ->
         nth_error segs i =
         Some (Examples.segment 0 line_color (nth i lats 0%R) (nth i lons 0%R)
                 line_length (nth i headings 0%R))).
Proof.
  intros Hload HN. split.
  - intros Hall.
    destruct (load_and_plot_gps_track_success read_csv csv_file line_length
                df Hload Hall)
      as [lats [lons [hs [sh [el [eo [post
           [Ha [Hb [Hc [La [Lb [Lc [Hs [He [Ho Hrun]]]]]]]]]]]]]]]].
    { intros E. unfold Pd.len in HN. rewrite E in HN. simpl in HN. lia. }
    destruct (shifted_headings_indexed hs) as [sh' [Hs' [Ls [Hnext Hlast]]]].
    { intros ->. simpl in Lc. lia. }
    rewrite Hs in Hs'. injection Hs' as <-.
    pose proof (lines_are_segments 0 "blue" lats lons sh el eo line_length) as Hseg.
    rewrite Ls, Lc in Hseg. rewrite Hseg in Hrun by (assumption || congruence).
    exists lats, lons, hs. eexists. eexists.
    repeat (split; [eassumption|]).
    split; [rewrite Hrun; reflexivity|].
    split; [rewrite length_map, length_seq; reflexivity|].
    split.
    + intros i Hi. rewrite nth_error_map_seq by lia. do 2 f_equal.
      apply nth_error_nth. rewrite Hnext by lia.
      rewrite Nat.add_1_r. apply nth_error_nth'. lia.
    + rewrite nth_error_map_seq by lia. do 2 f_equal.
      apply nth_error_nth. rewrite <- Lc, Hlast.
      apply nth_error_nth'. lia.
  - intros lats lons hs Ha Hb Hc.
    pose proof (getitem_length _ _ _ Ha) as La.
    pose proof (getitem_length _ _ _ Hb) as Lb.
    pose proof (getitem_length _ _ _ Hc) as Lc.
    destruct (end_points_indexed lats lons hs line_length) as
        [el [eo [He [Ho [Le [Lo _]]]]]]; try congruence.
    rewrite (plot_with_custom_settings_run read_csv hist_raises csv_file line_length
               point_size line_color point_color df lats lons hs el eo);
      try assumption; try congruence.
    pose proof (lines_are_segments 0 line_color lats lons hs el eo line_length)
      as Hseg.
    rewrite La. rewrite Lc in Hseg. rewrite Hseg by (assumption || congruence).
    eexists. eexists. split; [reflexivity|].
    split; [rewrite length_map, length_seq; reflexivity|].
    intros i Hi. rewrite nth_error_map_seq by exact Hi. reflexivity.
Qed.

Lemma heading_drawn_per_entry_point_witness :
  (exists lats lons headings segs rest,
     Pd.getitem Examples.strict_table
       (Resolver.lat_col (Resolver.resolve_strict (Pd.columns Examples.strict_table)))
       = inr lats /\
     Pd.getitem Examples.strict_table
       (Resolver.lon_col (Resolver.resolve_strict (Pd.columns Examples.strict_table)))
       = inr lons /\
     Pd.getitem Examples.strict_table
       (Resolver.heading_col (Resolver.resolve_strict (Pd.columns Examples.strict_table)))
       = inr headings /\
     fst (TrackViz.load_and_plot_gps_track (fun _ => inr Examples.strict_table)
            "track.csv" 1) =
       Print (Loaded 2) :: Print (Columns (Pd.columns Examples.strict_table)) ::
       Print (Preview (Pd.head Examples.strict_table)) :: Subplots 1 1 ::
       Scatter 0 lons lats "red" (1 / 10)%R :: segs ++ rest /\
     length segs = 2 /\
     (forall i, i < 1 ->
        nth_error segs i =
        Some (Examples.segment 0 "blue" (nth i lats 0%R) (nth i lons 0%R)
                1 (nth (i + 1) headings 0%R))) /\
     nth_error segs 1 =
       Some (Examples.segment 0 "blue" (nth 1 lats 0%R) (nth 1 lons 0%R) 1
               (nth 1 headings 0%R))) /\
  (exists segs rest,
     fst (TrackViz.plot_with_custom_settings (fun _ => inr Examples.permissive_table)
            (fun _ _ _ => None)
            "track.csv" 1 20 "blue" "red") =
       Subplots 1 2 :: Scatter 0 [0; 1]%R [0; 1]%R "red" 20 :: segs ++ rest /\
     length segs = 2 /\
     forall i, i < 2 ->
       nth_error segs i =
       Some (Examples.segment 0 "blue" (nth i [0; 1]%R 0%R) (nth i [0; 1]%R 0%R)
               1 (nth i [0; 90]%R 0%R))).
Proof.
  split.
  - apply (proj1 (heading_drawn_per_entry_point
                    (fun _ => inr Examples.strict_table) (fun _ _ _ => None) "track.csv" 1 20
                    "blue" "red" Examples.strict_table eq_refl (le_n 2))).
    reflexivity.
  - apply (proj2 (heading_drawn_per_entry_point
                    (fun _ => inr Examples.permissive_table) (fun _ _ _ => None) "track.csv" 1 20
                    "blue" "red" Examples.permissive_table eq_refl (le_n 2)));
      reflexivity.
Defined.

(** ** The histogram panel *)

Section Histogram.
Local Open Scope R_scope.

(** Without a range the buckets span the data's minimum and maximum. *)
Lemma outer_edges_of_data (x : list R) (lo hi : R) :
  Np.min x = inr lo -> Np.max x = inr hi -> lo < hi ->
  Np.outer_edges x None = inr (lo, hi).
Proof.
  intros Hlo Hhi Hlt. destruct x as [|x0 x]; [discriminate|].
  simpl in Hlo, Hhi. injection Hlo as Hlo. injection Hhi as Hhi.
  unfold Np.outer_edges. rewrite Hlo, Hhi. simpl.
  destruct (Req_dec_T lo hi) as [E|_]; [lra|reflexivity].
Qed.

(** Data of a single value get a range one wide around it. *)
Lemma outer_edges_of_constant_data (x : list R) (h : R) :
  Np.min x = inr h -> Np.max x = inr h ->
  Np.outer_edges x None = inr (h - 1 / 2, h + 1 / 2).
Proof.
  intros Hlo Hhi. destruct x as [|x0 x]; [discriminate|].
  simpl in Hlo, Hhi. injection Hlo as Hlo. injection Hhi as Hhi.
  unfold Np.outer_edges. rewrite Hlo, Hhi. simpl.
  destruct (Req_dec_T h h) as [_|E]; [reflexivity|contradiction].
Qed.

Lemma outer_edges_of_no_data : Np.outer_edges [] None = inr (0, 1).
Proof. reflexivity. Qed.

(** A range handed to the call is the range of the buckets, whatever
    the data. *)
Lemma outer_edges_of_range (x : list R) (lo hi : R) :
  (lo < hi -> Np.outer_edges x (Some (lo, hi)) = inr (lo, hi)) /\
  (lo = hi ->
   Np.outer_edges x (Some (lo, hi)) = inr (lo - 1 / 2, hi + 1 / 2)) /\
  (hi < lo -> Np.outer_edges x (Some (lo, hi)) = inl ValueError).
Proof.
  unfold Np.outer_edges. simpl. repeat split; intros H.
  - destruct (Rlt_dec hi lo); [lra|].
    destruct (Req_dec_T lo hi); [lra|reflexivity].
  - destruct (Rlt_dec hi lo); [lra|].
    destruct (Req_dec_T lo hi); [reflexivity|contradiction].
  - destruct (Rlt_dec hi lo); [reflexivity|contradiction].
Qed.
End Histogram.

(** C9, as stated, fails: for the recorded headings 0 and 90 the call
    passes no range, so the 36 buckets span [0, 90], not [0, 360), and
    36 buckets of 10 degrees do not fit in 90 degrees. *)
Lemma histogram_spans_the_data :
  nth_error
    (fst (TrackViz.plot_with_custom_settings (fun _ => inr Examples.permissive_table)
            (fun _ _ _ => None) "track.csv" 1 20 "blue" "red")) 5 =
    Some (Hist 1 [0; 90]%R 36 None) /\
  Np.outer_edges [0; 90]%R None = inr (0, 90)%R /\
  Np.outer_edges [0; 90]%R None <> inr (0, 360)%R /\
  (36 * 10 <> 90 - 0)%R.
Proof.
  assert (Hrange : Np.outer_edges [0; 90]%R None = inr (0, 90)%R).
  { apply (outer_edges_of_data [0; 90]%R 0%R 90%R); simpl.
    - rewrite Rmin_left by lra. reflexivity.
    - rewrite Rmax_right by lra. reflexivity.
    - lra. }
  split; [rewrite permissive_table_trace; reflexivity|].
  split; [exact Hrange|]. split; [|lra].
  rewrite Hrange. intros H. injection H as H. lra.
Qed.

(** C9, amended: on a table with at least one row the second panel of
    [plot_with_custom_settings] is requested by one call,
    [ax2.hist(headings, bins=36)], on the headings as recorded (not
    shifted), with 36 buckets and no range: the buckets span the data's
    own minimum and maximum when these differ, and one degree around the
    heading when all headings are equal.  If the call raises, the
    exception leaves the function after the other figure calls and
    before the figure is shown. *)
Theorem histogram_of_recorded_headings
    (read_csv : string -> exn + Pd.DataFrame)
    (hist_raises : list R -> nat -> option (R * R) -> option exn)
    (csv_file : string)
    (line_length point_size : R) (line_color point_color : string)
    (df : Pd.DataFrame) (lats lons headings : list R) :
  read_csv csv_file = inr df ->
  Pd.rows df <> [] ->
  Pd.getitem df (Resolver.lat_col (Resolver.resolve_permissive (Pd.columns df)))
    = inr lats ->
  Pd.getitem df (Resolver.lon_col (Resolver.resolve_permissive (Pd.columns df)))
    = inr lons ->
  Pd.getitem df (Resolver.heading_col (Resolver.resolve_permissive (Pd.columns df)))
    = inr headings ->
  (exists before,
     (forall ax x bins range, ~ In (Hist ax x bins range) before) /\
     TrackViz.plot_with_custom_settings read_csv hist_raises csv_file
       line_length point_size line_color point_color =
     (before ++
      Hist 1 headings 36 None ::
      match hist_raises headings 36 None with
      | Some _ => []
      | None => [Show]
      end,
      match hist_raises headings 36 None with
      | Some e => inl e
      | None => inr (Some df)
      end)) /\
  (forall lo hi,
     Np.min headings = inr lo -> Np.max headings = inr hi -> (lo < hi)%R ->
     Np.outer_edges headings None = inr (lo, hi)) /\
  (forall h,
     Np.min headings = inr h -> Np.max headings = inr h ->
     Np.outer_edges headings None = inr (h - 1 / 2, h + 1 / 2)%R).
Proof.
  intros Hload Hrows Ha Hb Hc.
  pose proof (getitem_length _ _ _ Ha) as La.
  pose proof (getitem_length _ _ _ Hb) as Lb.
  pose proof (getitem_length _ _ _ Hc) as Lc.
  split; [|split].
  - destruct (end_points_indexed lats lons headings line_length) as
        [el [eo [He [Ho [Le [Lo _]]]]]]; try congruence.
    rewrite (plot_with_custom_settings_run read_csv hist_raises csv_file
               line_length point_size line_color point_color df
               lats lons headings el eo);
      try assumption; try congruence.
    exists (Subplots 1 2 :: Scatter 0 lons lats point_color point_size ::
            map (fun i => Plot 0 [nth i lons 0%R; nth i eo 0%R]
                                 [nth i lats 0%R; nth i el 0%R] line_color)
                (seq 0 (length lats)) ++ [Plot 0 lons lats "gray"]).
    split.
    + intros ax x bins range Hin. simpl in Hin.
      destruct Hin as [H|[H|H]]; try discriminate.
      apply in_app_or in H. destruct H as [H|H].
      * apply in_map_iff in H. destruct H as [i [H _]]. discriminate.
      * simpl in H. destruct H as [H|[]]. discriminate.
    + simpl. rewrite <- app_assoc. reflexivity.
  - intros lo hi. apply outer_edges_of_data.
  - intros h. apply outer_edges_of_constant_data.
Qed.

Lemma histogram_of_recorded_headings_witness :
  (exists before,
     (forall ax x bins range, ~ In (Hist ax x bins range) before) /\
     TrackViz.plot_with_custom_settings (fun _ => inr Examples.permissive_table)
       (fun _ _ _ => Some ValueError) "track.csv" 1 20 "blue" "red" =
     (before ++ [Hist 1 [0; 90]%R 36 None], inl ValueError)) /\
  Np.outer_edges [0; 90]%R None = inr (0, 90)%R /\
  Np.outer_edges [90; 90]%R None = inr (90 - 1 / 2, 90 + 1 / 2)%R.
Proof.
  split; [|split].
  - apply (proj1 (histogram_of_recorded_headings
                    (fun _ => inr Examples.permissive_table)
                    (fun _ _ _ => Some ValueError) "track.csv" 1 20
                    "blue" "red" Examples.permissive_table
                    [0; 1]%R [0; 1]%R [0; 90]%R eq_refl
                    ltac:(discriminate) eq_refl eq_refl eq_refl)).
  - apply (proj1 (proj2 (histogram_of_recorded_headings
                    (fun _ => inr Examples.permissive_table)
                    (fun _ _ _ => None) "track.csv" 1 20
                    "blue" "red" Examples.permissive_table
                    [0; 1]%R [0; 1]%R [0; 90]%R eq_refl
                    ltac:(discriminate) eq_refl eq_refl eq_refl))
             0%R 90%R); simpl.
    + rewrite Rmin_left by lra. reflexivity.
    + rewrite Rmax_right by lra. reflexivity.
    + lra.
  - apply (proj2 (proj2 (histogram_of_recorded_headings
                    (fun _ => inr Examples.constant_heading_table)
                    (fun _ _ _ => None) "track.csv" 1 20 "blue" "red"
                    Examples.constant_heading_table
                    [0; 1]%R [0; 1]%R [90; 90]%R eq_refl
                    ltac:(discriminate) eq_refl eq_refl eq_refl))
             90%R); simpl.
    + rewrite Rmin_left by lra. reflexivity.
    + rewrite Rmax_left by lra. reflexivity.
Defined.

(* ================================================================== *)
(** * Further properties of the code *)

(** ** Column resolution *)

Section ResolutionMore.
Import PyStr Resolver.

Lemma category_eqb_eq (a b : category) : category_eqb a b = true <-> a = b.
Proof. destruct a, b; simpl; split; intros H; congruence. Qed.

Lemma matches_unique (cat_of : string -> option category) (a b : category)
    (col : string) :
  matches cat_of a col = true -> matches cat_of b col = true -> a = b.
Proof.
  unfold matches. destruct (cat_of col) as [c|]; [|discriminate].
  intros Ha Hb. apply category_eqb_eq in Ha, Hb. congruence.
Qed.

Lemma last_match_snoc (p : string -> bool) (l : list string) (x : string) :
  last_match p (l ++ [x]) = if p x then Some x else last_match p l.
Proof. unfold last_match. rewrite rev_app_distr. reflexivity. Qed.

Lemma last_match_filter (p q : string -> bool) (l : list string) :
  (forall x, p x = true -> q x = true) ->
  last_match p (filter q l) = last_match p l.
Proof.
  intros Hpq. induction l as [|x l IH] using rev_ind; [reflexivity|].
  rewrite filter_app. simpl. rewrite last_match_snoc.
  destruct (q x) eqn:Eq.
  - rewrite last_match_snoc, IH. reflexivity.
  - rewrite app_nil_r, IH. destruct (p x) eqn:Ep; [|reflexivity].
    rewrite (Hpq x Ep) in Eq. discriminate.
Qed.

Lemma last_match_exists (p : string -> bool) (l : list string) :
  last_match p l <> None <-> exists x, In x l /\ p x = true.
Proof.
  split.
  - intros H. destruct (last_match p l) as [x|] eqn:E; [|contradiction].
    exists x. apply last_match_some. exact E.
  - intros [x [Hin Hp]] E.
    rewrite (last_match_none p l E x Hin) in Hp. discriminate.
Qed.

Lemma mapping_ext (m1 m2 : mapping) :
  (forall c, get m1 c = get m2 c) -> m1 = m2.
Proof.
  intros H. destruct m1 as [a1 b1 c1], m2 as [a2 b2 c2].
  pose proof (H Latitude) as H1. pose proof (H Longitude) as H2.
  pose proof (H Heading) as H3. simpl in H1, H2, H3. congruence.
Qed.

Lemma lon_contains_long (s : string) :
  contains "long" s = true -> contains "lon" s = true.
Proof. apply (contains_append_l "lon" "g"). Qed.

Lemma lat_contains_latitude (s : string) :
  contains "latitude" s = true -> contains "lat" s = true.
Proof. apply (contains_append_l "lat" "itude"). Qed.
End ResolutionMore.

(** X1: the columns resolved for two different categories are different
    columns, in both variants: no column serves as two of latitude,
    longitude and heading. *)
Theorem resolved_columns_distinct (columns : list string)
    (a b : Resolver.category) (x y : string) :
  a <> b ->
  (Resolver.get (Resolver.resolve_strict columns) a = Some x ->
   Resolver.get (Resolver.resolve_strict columns) b = Some y -> x <> y) /\
  (Resolver.get (Resolver.resolve_permissive columns) a = Some x ->
   Resolver.get (Resolver.resolve_permissive columns) b = Some y -> x <> y).
Proof.
  intros Hab. split; intros Hx Hy Exy; subst y; apply Hab.
  - rewrite resolve_strict_get in Hx, Hy.
    apply last_match_some in Hx, Hy.
    exact (matches_unique _ a b x (proj2 Hx) (proj2 Hy)).
  - rewrite resolve_permissive_get in Hx, Hy.
    apply last_match_some in Hx, Hy.
    exact (matches_unique _ a b x (proj2 Hx) (proj2 Hy)).
Qed.

Lemma resolved_columns_distinct_witness :
  "Latitude (deg)" <> "Longitude (deg)" /\ "lat" <> "lon".
Proof.
  split.
  - apply (proj1 (resolved_columns_distinct
                    ["Latitude (deg)"; "Longitude (deg)"; "Course Over Ground"]
                    Resolver.Latitude Resolver.Longitude
                    "Latitude (deg)" "Longitude (deg)"
                    ltac:(discriminate))); reflexivity.
  - apply (proj2 (resolved_columns_distinct ["lat"; "lon"; "heading"]
                    Resolver.Latitude Resolver.Longitude "lat" "lon"
                    ltac:(discriminate))); reflexivity.
Defined.

(** X2: in the permissive loop the longitude test, "lon" or "long", is
    the test for "lon" alone: a column that does not take the latitude
    branch is assigned to [lon_col] exactly when its normalised name
    contains "lon". *)
Theorem permissive_longitude_is_lon (col : string) :
  let col_lower := PyStr.strip (PyStr.lower col) in
  (PyStr.contains "lon" col_lower || PyStr.contains "long" col_lower =
   PyStr.contains "lon" col_lower) /\
  (PyStr.contains "lat" col_lower = false ->
   forall m,
     (PyStr.contains "lon" col_lower = true ->
      Resolver.permissive_step m col =
      Resolver.Mapping (Resolver.lat_col m) (Some col) (Resolver.heading_col m)) /\
     (PyStr.contains "lon" col_lower = false ->
      Resolver.lon_col (Resolver.permissive_step m col) = Resolver.lon_col m)).
Proof.
  intros col_lower.
  assert (Hor : PyStr.contains "lon" col_lower || PyStr.contains "long" col_lower =
                PyStr.contains "lon" col_lower).
  { destruct (PyStr.contains "long" col_lower) eqn:E.
    - rewrite (lon_contains_long _ E). reflexivity.
    - apply orb_false_r. }
  split; [exact Hor|].
  intros Hlat m. unfold Resolver.permissive_step. fold col_lower.
  rewrite Hlat, Hor.
  destruct (PyStr.contains "lon" col_lower).
  - split; [reflexivity|discriminate].
  - split; [discriminate|].
    destruct (PyStr.contains "head" col_lower); reflexivity.
Qed.

Lemma permissive_longitude_is_lon_witness :
  Resolver.permissive_step Resolver.unresolved "Lon" =
    Resolver.Mapping None (Some "Lon") None /\
  Resolver.lon_col (Resolver.permissive_step Resolver.unresolved "Heading") = None.
Proof.
  split.
  - apply (proj1 (proj2 (permissive_longitude_is_lon "Lon") eq_refl
                    Resolver.unresolved)).
    reflexivity.
  - apply (proj2 (proj2 (permissive_longitude_is_lon "Heading") eq_refl
                    Resolver.unresolved)).
    reflexivity.
Defined.

(** X3: the permissive tests are wider than the strict ones for
    latitude and longitude: a column the strict loop assigns to
    [lat_col] is assigned to [lat_col] by the permissive loop, and a
    column the strict loop assigns to [lon_col] is assigned by the
    permissive loop to [lon_col], or to [lat_col] when its name also
    contains "lat". *)
Theorem strict_match_is_permissive_match (col : string) :
  (Resolver.matches Resolver.strict_category Resolver.Latitude col = true ->
   Resolver.matches Resolver.permissive_category Resolver.Latitude col = true) /\
  (Resolver.matches Resolver.strict_category Resolver.Longitude col = true ->
   Resolver.matches Resolver.permissive_category Resolver.Longitude col = true \/
   Resolver.matches Resolver.permissive_category Resolver.Latitude col = true) /\
  (Resolver.lat_col (Resolver.strict_step Resolver.unresolved col) = Some col ->
   Resolver.lat_col (Resolver.permissive_step Resolver.unresolved col) = Some col).
Proof.
  unfold Resolver.matches, Resolver.strict_category, Resolver.permissive_category,
    Resolver.strict_step, Resolver.permissive_step.
  set (s := PyStr.strip (PyStr.lower col)).
  rewrite longitude_or_long.
  destruct (PyStr.contains "latitude" s) eqn:E1.
  - rewrite (lat_contains_latitude s E1).
    split; [reflexivity|]. split; [discriminate|reflexivity].
  - split; [|split].
    + destruct (PyStr.contains "long" s); [discriminate|].
      destruct (PyStr.contains "course" s); discriminate.
    + destruct (PyStr.contains "long" s) eqn:E2.
      * intros _. rewrite (lon_contains_long s E2).
        destruct (PyStr.contains "lat" s); [right|left]; reflexivity.
      * destruct (PyStr.contains "course" s); discriminate.
    + destruct (PyStr.contains "long" s); [discriminate|].
      destruct (PyStr.contains "course" s); discriminate.
Qed.

Lemma strict_match_is_permissive_match_witness :
  Resolver.matches Resolver.permissive_category Resolver.Latitude
    "Latitude (deg)" = true /\
  (Resolver.matches Resolver.permissive_category Resolver.Longitude
     "Longitude (deg)" = true \/
   Resolver.matches Resolver.permissive_category Resolver.Latitude
     "Longitude (deg)" = true) /\
  Resolver.lat_col (Resolver.permissive_step Resolver.unresolved "GPS Latitude") =
    Some "GPS Latitude".
Proof.
  split; [|split].
  - apply (proj1 (strict_match_is_permissive_match "Latitude (deg)")).
    reflexivity.
  - apply (proj1 (proj2 (strict_match_is_permissive_match "Longitude (deg)"))).
    reflexivity.
  - apply (proj2 (proj2 (strict_match_is_permissive_match "GPS Latitude"))).
    reflexivity.
Defined.

(** ** Normalising a column name *)

Section Normalise.
Import PyStr Words.
Local Open Scope string_scope.

Lemma lower_char_idem (c : ascii) : lower_char (lower_char c) = lower_char c.
Proof. destruct c as [[] [] [] [] [] [] [] []]; reflexivity. Qed.

Lemma is_space_lower_char (c : ascii) : is_space (lower_char c) = is_space c.
Proof. destruct c as [[] [] [] [] [] [] [] []]; reflexivity. Qed.

Lemma lower_idem (s : string) : lower (lower s) = lower s.
Proof.
  induction s as [|c s IH]; [reflexivity|].
  simpl. rewrite lower_char_idem, IH. reflexivity.
Qed.

Lemma lower_append (a b : string) : lower (a ++ b) = lower a ++ lower b.
Proof.
  induction a as [|c a IH]; [reflexivity|]. simpl. rewrite IH. reflexivity.
Qed.

Lemma all_space_lower (s : string) : all_space (lower s) = all_space s.
Proof.
  induction s as [|c s IH]; [reflexivity|].
  simpl. rewrite is_space_lower_char, IH. reflexivity.
Qed.

Lemma lstrip_pad (ws s : string) :
  all_space ws = true -> lstrip (ws ++ s) = lstrip s.
Proof.
  induction ws as [|c ws IH]; [reflexivity|].
  simpl. intros H. apply andb_true_iff in H. destruct H as [Hc Hws].
  rewrite Hc. apply IH. exact Hws.
Qed.

Lemma rstrip_all_space (ws : string) : all_space ws = true -> rstrip ws = "".
Proof.
  induction ws as [|c ws IH]; [reflexivity|].
  simpl. intros H. apply andb_true_iff in H. destruct H as [Hc Hws].
  rewrite (IH Hws), Hc. reflexivity.
Qed.

Lemma rstrip_pad (s ws : string) :
  all_space ws = true -> rstrip (s ++ ws) = rstrip s.
Proof.
  intros H. induction s as [|c s IH]; [apply rstrip_all_space; exact H|].
  simpl. rewrite IH. reflexivity.
Qed.

Lemma lstrip_all_space (ws : string) : all_space ws = true -> lstrip ws = "".
Proof.
  induction ws as [|c ws IH]; [reflexivity|].
  simpl. intros H. apply andb_true_iff in H. destruct H as [Hc Hws].
  rewrite Hc. apply IH. exact Hws.
Qed.

Lemma lstrip_append_pad (s ws : string) :
  all_space ws = true ->
  lstrip (s ++ ws) =
  match lstrip s with
  | EmptyString => EmptyString
  | t => t ++ ws
  end.
Proof.
  intros H. induction s as [|c s IH].
  - simpl. apply lstrip_all_space. exact H.
  - simpl. destruct (is_space c); [exact IH|reflexivity].
Qed.

Lemma strip_pad (ws1 s ws2 : string) :
  all_space ws1 = true -> all_space ws2 = true ->
  strip (ws1 ++ s ++ ws2) = strip s.
Proof.
  intros H1 H2. unfold strip.
  rewrite lstrip_pad by exact H1.
  rewrite lstrip_append_pad by exact H2.
  destruct (lstrip s) as [|c t] eqn:E; [reflexivity|].
  apply rstrip_pad. exact H2.
Qed.
End Normalise.

Section StripAndMatch.
Import PyStr Words.
Local Open Scope string_scope.

Lemma prefix_space_head (n s : string) (c d : ascii) :
  is_space c = false -> is_space d = true ->
  prefix (String c n) (String d s) = false.
Proof.
  intros Hc Hd. simpl. destruct (ascii_dec c d) as [E|_]; [|reflexivity].
  subst d. congruence.
Qed.

Lemma contains_lstrip (n s : string) (c : ascii) :
  is_space c = false ->
  contains (String c n) (lstrip s) = contains (String c n) s.
Proof.
  intros Hc. induction s as [|d s IH]; [reflexivity|].
  cbn [lstrip]. destruct (is_space d) eqn:Hd; [|reflexivity].
  rewrite IH. cbn [contains].
  rewrite (prefix_space_head n s c d Hc Hd). reflexivity.
Qed.

Lemma prefix_rstrip (n s : string) :
  no_space n = true -> prefix n (rstrip s) = prefix n s.
Proof.
  revert n. induction s as [|d s IH]; intros n Hn; [reflexivity|].
  destruct n as [|c n]; [destruct (rstrip (String d s)); reflexivity|].
  simpl in Hn. apply andb_true_iff in Hn. destruct Hn as [Hc Hn].
  apply negb_true_iff in Hc.
  pose proof (IH n Hn) as IHn.
  cbn [rstrip]. destruct (rstrip s) as [|e r] eqn:Er.
  - destruct (is_space d) eqn:Hd.
    + rewrite (prefix_space_head n s c d Hc Hd). reflexivity.
    + simpl. destruct (ascii_dec c d); [exact IHn|reflexivity].
  - simpl. destruct (ascii_dec c d); [exact IHn|reflexivity].
Qed.

Lemma contains_rstrip (n s : string) (c : ascii) :
  no_space (String c n) = true ->
  contains (String c n) (rstrip s) = contains (String c n) s.
Proof.
  intros Hn. induction s as [|d s IH]; [reflexivity|].
  pose proof (prefix_rstrip (String c n) (String d s) Hn) as Hp.
  cbn [rstrip] in *. destruct (rstrip s) as [|e r] eqn:Er.
  - destruct (is_space d) eqn:Hd.
    + cbn [contains]. rewrite <- IH, <- Hp. reflexivity.
    + cbn [contains]. rewrite <- IH, Hp. reflexivity.
  - cbn [contains]. rewrite <- IH, Hp. reflexivity.
Qed.

Lemma contains_strip (n s : string) :
  no_space n = true -> n <> "" ->
  contains n (strip s) = contains n s.
Proof.
  intros Hn Hne. destruct n as [|c n]; [contradiction|].
  unfold strip. rewrite contains_rstrip by exact Hn.
  apply contains_lstrip.
  simpl in Hn. apply andb_true_iff in Hn.
  apply negb_true_iff. exact (proj1 Hn).
Qed.
End StripAndMatch.

(** X4: whitespace around a column name and the case of its letters do
    not change the branch the name takes: a name padded with whitespace
    on either side has the same normalised form, and lowercasing a name
    beforehand changes nothing, in both variants. *)
Theorem classification_ignores_padding_and_case (ws1 col ws2 : string) :
  (Words.all_space ws1 = true -> Words.all_space ws2 = true ->
   PyStr.strip (PyStr.lower (ws1 ++ col ++ ws2)%string) =
     PyStr.strip (PyStr.lower col) /\
   Resolver.strict_category (ws1 ++ col ++ ws2)%string =
     Resolver.strict_category col /\
   Resolver.permissive_category (ws1 ++ col ++ ws2)%string =
     Resolver.permissive_category col) /\
  (Resolver.strict_category (PyStr.lower col) = Resolver.strict_category col /\
   Resolver.permissive_category (PyStr.lower col) =
     Resolver.permissive_category col).
Proof.
  split.
  - intros H1 H2.
    assert (E : PyStr.strip (PyStr.lower (ws1 ++ col ++ ws2)%string) =
                PyStr.strip (PyStr.lower col)).
    { rewrite !lower_append. apply strip_pad; rewrite all_space_lower; assumption. }
    split; [exact E|].
    unfold Resolver.strict_category, Resolver.permissive_category.
    rewrite E. split; reflexivity.
  - unfold Resolver.strict_category, Resolver.permissive_category.
    rewrite lower_idem. split; reflexivity.
Qed.

Lemma classification_ignores_padding_and_case_witness :
  PyStr.strip (PyStr.lower ("  " ++ "Latitude" ++ " ")%string) =
    PyStr.strip (PyStr.lower "Latitude") /\
  Resolver.strict_category ("  " ++ "Latitude" ++ " ")%string =
    Resolver.strict_category "Latitude" /\
  Resolver.permissive_category ("  " ++ "Latitude" ++ " ")%string =
    Resolver.permissive_category "Latitude".
Proof.
  apply (proj1 (classification_ignores_padding_and_case "  " "Latitude" " "));
    reflexivity.
Defined.

(** X5: the call to [strip] never changes a test of either loop: none
    of the substrings looked for contains whitespace, so each is found in
    the trimmed lowercased name exactly when it is found in the
    lowercased name. *)
Theorem strip_never_changes_a_match (needle col : string) :
  In needle Words.needles ->
  PyStr.contains needle (PyStr.strip (PyStr.lower col)) =
  PyStr.contains needle (PyStr.lower col).
Proof.
  intros H. apply contains_strip.
  - simpl in H.
    repeat (destruct H as [<-|H]; [reflexivity|]). destruct H.
  - simpl in H.
    repeat (destruct H as [<-|H]; [discriminate|]). destruct H.
Qed.

Lemma strip_never_changes_a_match_witness :
  PyStr.contains "course" (PyStr.strip (PyStr.lower " Course Over Ground ")) =
  PyStr.contains "course" (PyStr.lower " Course Over Ground ").
Proof.
  apply (strip_never_changes_a_match "course" " Course Over Ground ").
  simpl. right. right. right. left. reflexivity.
Defined.

(** X6: columns that take no branch are ignored, in each variant
    separately: dropping any columns that take no branch of the strict
    loop leaves the strict mapping unchanged, and dropping any columns
    that take no branch of the permissive loop leaves the permissive
    mapping unchanged. *)
Theorem unmatched_columns_are_ignored (keep : string -> bool)
    (columns : list string) :
  ((forall col, Resolver.strict_category col <> None -> keep col = true) ->
   Resolver.resolve_strict (filter keep columns) =
     Resolver.resolve_strict columns) /\
  ((forall col, Resolver.permissive_category col <> None -> keep col = true) ->
   Resolver.resolve_permissive (filter keep columns) =
     Resolver.resolve_permissive columns).
Proof.
  split; intros Hk; apply mapping_ext; intros c.
  - rewrite !resolve_strict_get. apply last_match_filter.
    intros x Hx. apply Hk. unfold Resolver.matches in Hx.
    destruct (Resolver.strict_category x); discriminate.
  - rewrite !resolve_permissive_get. apply last_match_filter.
    intros x Hx. apply Hk. unfold Resolver.matches in Hx.
    destruct (Resolver.permissive_category x); discriminate.
Qed.

Lemma unmatched_columns_are_ignored_witness :
  Resolver.resolve_strict
    (filter (fun col => negb (String.eqb col "heading"))
       ["latitude"; "heading"; "longitude"; "course"]) =
    Resolver.resolve_strict ["latitude"; "heading"; "longitude"; "course"] /\
  Resolver.resolve_permissive
    (filter (fun col => negb (String.eqb col "course"))
       ["lat"; "course"; "lon"; "heading"]) =
    Resolver.resolve_permissive ["lat"; "course"; "lon"; "heading"].
Proof.
  split.
  - apply (proj1 (unmatched_columns_are_ignored
                    (fun col => negb (String.eqb col "heading"))
                    ["latitude"; "heading"; "longitude"; "course"])).
    intros col H. destruct (String.eqb_spec col "heading") as [->|_];
      [exfalso; apply H; reflexivity | reflexivity].
  - apply (proj2 (unmatched_columns_are_ignored
                    (fun col => negb (String.eqb col "course"))
                    ["lat"; "course"; "lon"; "heading"])).
    intros col H. destruct (String.eqb_spec col "course") as [->|_];
      [exfalso; apply H; reflexivity | reflexivity].
Defined.

(** X7: the test of line 39 passes exactly when every category has a
    column that takes its branch: a matched name is never empty, so the
    truth-value test never rejects a resolved column. *)
Theorem all_resolved_iff_every_category_matched (columns : list string) :
  Resolver.all_resolved (Resolver.resolve_strict columns) = true <->
  (forall c, exists col,
      In col columns /\
      Resolver.matches Resolver.strict_category c col = true).
Proof.
  rewrite all_resolved_strict. split.
  - intros [H1 [H2 H3]] c.
    apply last_match_exists. rewrite <- resolve_strict_get.
    destruct c; assumption.
  - intros H.
    pose proof (proj2 (last_match_exists _ _) (H Resolver.Latitude)) as H1.
    pose proof (proj2 (last_match_exists _ _) (H Resolver.Longitude)) as H2.
    pose proof (proj2 (last_match_exists _ _) (H Resolver.Heading)) as H3.
    rewrite <- resolve_strict_get in H1, H2, H3.
    repeat split; assumption.
Qed.

Lemma all_resolved_iff_every_category_matched_witness :
  Resolver.all_resolved
    (Resolver.resolve_strict
       ["Latitude (deg)"; "Longitude (deg)"; "Course Over Ground"]) = true.
Proof.
  apply (proj2 (all_resolved_iff_every_category_matched
                  ["Latitude (deg)"; "Longitude (deg)"; "Course Over Ground"])).
  intros [].
  - exists "Latitude (deg)". split; [simpl; auto | reflexivity].
  - exists "Longitude (deg)". split; [simpl; auto | reflexivity].
  - exists "Course Over Ground". split; [simpl; auto | reflexivity].
Defined.

(** ** The shift, in closed form *)

Section ShiftMore.
Import TrackViz.

Lemma shifted_headings_cons (x : R) (t : list R) :
  shifted_headings (x :: t) = inr (t ++ [last t x]).
Proof.
  assert (Hne : x :: t <> []) by discriminate.
  destruct (exists_last Hne) as [init [l E]].
  destruct init as [|y init]; simpl in E; injection E as -> ->.
  - apply (shifted_headings_snoc [] l).
  - rewrite last_last.
    apply (shifted_headings_snoc (y :: init) l).
Qed.

Lemma last_default {A : Type} (t : list A) (x y : A) :
  t <> [] -> last t x = last t y.
Proof.
  induction t as [|a t IH]; intros H; [contradiction|].
  destruct t as [|b t]; [reflexivity|].
  cbn [last]. apply IH. discriminate.
Qed.
End ShiftMore.

(** X8: the shifted array is the headings without their first element,
    followed by the last heading once more.  So with two or more rows the
    first recorded heading has no effect on what is drawn. *)
Theorem first_heading_is_discarded (x : R) (t : list R) :
  TrackViz.shifted_headings (x :: t) = inr (t ++ [last t x]) /\
  (t <> [] ->
   forall y, TrackViz.shifted_headings (y :: t) =
             TrackViz.shifted_headings (x :: t)).
Proof.
  split; [apply shifted_headings_cons|].
  intros Ht y. rewrite !shifted_headings_cons.
  rewrite (last_default t y x Ht). reflexivity.
Qed.

Lemma first_heading_is_discarded_witness :
  TrackViz.shifted_headings [45; 10; 20]%R =
  TrackViz.shifted_headings [0; 10; 20]%R.
Proof.
  apply (proj2 (first_heading_is_discarded 0%R [10; 20]%R)). discriminate.
Defined.

(** X9: the copy of line 52 has no effect: lines 55-56 applied to any
    array as long as the headings give the result of lines 51-56. *)
Theorem initial_copy_is_overwritten (a headings : list R) :
  length a = length headings ->
  match Np.setslice a None (Some (-1)%Z)
          (Np.getslice headings (Some 1%Z) None) with
  | inl e => inl e
  | inr s =>
      match Np.getitem headings (-1)%Z with
      | inl e => inl e
      | inr l => Np.setitem s (-1)%Z l
      end
  end = TrackViz.shifted_headings headings.
Proof.
  intros Hlen. destruct headings as [|x t].
  - destruct a; [reflexivity|discriminate].
  - rewrite shifted_headings_cons.
    assert (Ha : a <> []) by (intros ->; discriminate).
    destruct (exists_last Ha) as [ai [al ->]].
    assert (Hh : x :: t <> []) by discriminate.
    destruct (exists_last Hh) as [hi [hl Eh]].
    rewrite getslice_tail. simpl tl.
    rewrite length_app in Hlen. simpl in Hlen.
    rewrite setslice_init by (rewrite length_app; simpl; lia).
    rewrite length_app. simpl length. rewrite Nat.add_sub.
    rewrite skipn_app, skipn_all, Nat.sub_diag. simpl skipn. simpl app at 2.
    rewrite Eh, getitem_last, setitem_last. do 3 f_equal.
    destruct hi as [|y hi]; simpl in Eh; injection Eh as -> ->.
    + reflexivity.
    + symmetry. apply last_last.
Qed.

Lemma initial_copy_is_overwritten_witness :
  match Np.setslice [7; 7; 7]%R None (Some (-1)%Z)
          (Np.getslice [0; 10; 20]%R (Some 1%Z) None) with
  | inl e => inl e
  | inr s =>
      match Np.getitem [0; 10; 20]%R (-1)%Z with
      | inl e => inl e
      | inr l => Np.setitem s (-1)%Z l
      end
  end = TrackViz.shifted_headings [0; 10; 20]%R.
Proof.
  apply (initial_copy_is_overwritten [7; 7; 7]%R [0; 10; 20]%R). reflexivity.
Defined.

(** ** Every outcome of the entry points *)

Ltac py_step :=
  lazymatch goal with
  | |- bind (lift (inr _)) _ = _ => rewrite bind_lift_value
  | |- bind (print _) _ = _ => unfold print at 1; apply bind_emit_eq
  | |- bind (emit _) _ = _ => apply bind_emit_eq
  | |- bind (_, inr _) _ = _ => apply bind_value_eq
  end.

Section OutcomesMore.
Import Resolver TrackViz.
Variable read_csv : string -> exn + Pd.DataFrame.

(** The whole run on a table without rows. *)
Lemma load_and_plot_gps_track_no_rows_run (csv_file : string)
    (line_length : R) (df : Pd.DataFrame) :
  read_csv csv_file = inr df ->
  all_resolved (resolve_strict (Pd.columns df)) = true ->
  Pd.rows df = [] ->
  load_and_plot_gps_track read_csv csv_file line_length =
  ([Print (Loaded (Pd.len df)); Print (Columns (Pd.columns df));
    Print (Preview (Pd.head df))],
   inl IndexError).
Proof.
  intros Hload Hall Hrows.
  destruct (strict_arrays df Hall) as
      [lats [lons [headings [Ha [Hb [Hc [La [Lb Lc]]]]]]]].
  unfold Pd.len in La, Lb, Lc. rewrite Hrows in La, Lb, Lc.
  apply length_zero_iff_nil in La, Lb, Lc. subst lats lons headings.
  unfold load_and_plot_gps_track. rewrite Hload.
  cbv zeta. rewrite Hall. simpl negb. cbv iota.
  rewrite Ha, Hb, Hc. reflexivity.
Qed.

(** The run when the test of line 39 fails. *)
Lemma load_and_plot_gps_track_unresolved_run (csv_file : string)
    (line_length : R) (df : Pd.DataFrame) :
  read_csv csv_file = inr df ->
  all_resolved (resolve_strict (Pd.columns df)) = false ->
  load_and_plot_gps_track read_csv csv_file line_length =
  ([Print (Loaded (Pd.len df)); Print (Columns (Pd.columns df));
    Print (Preview (Pd.head df));
    Print (Text "Error: Could not find required columns (latitude, longitude, course)");
    Print (Available (Pd.columns df))],
   inr None).
Proof.
  intros Hload Hall. unfold load_and_plot_gps_track. rewrite Hload.
  cbv zeta. rewrite Hall. reflexivity.
Qed.

Lemma load_and_plot_gps_track_load_error_run (csv_file : string)
    (line_length : R) (e : exn) :
  read_csv csv_file = inl e ->
  load_and_plot_gps_track read_csv csv_file line_length =
  ([Print (LoadFailed e)], inr None).
Proof.
  intros Hload. unfold load_and_plot_gps_track. rewrite Hload. reflexivity.
Qed.

(** The permissive entry point either raises with nothing drawn (the
    load error, or KeyError for an unassigned variable), or makes every
    figure call up to the histogram. *)
Lemma plot_with_custom_settings_cases
    (hist_raises : list R -> nat -> option (R * R) -> option exn)
    (csv_file : string)
    (line_length point_size : R) (line_color point_color : string) :
  (exists e,
     plot_with_custom_settings read_csv hist_raises csv_file line_length
       point_size line_color point_color = ([], inl e) /\
     (read_csv csv_file = inl e \/
      (e = KeyError None /\
       exists df c, read_csv csv_file = inr df /\
                    get (resolve_permissive (Pd.columns df)) c = None))) \/
  (exists df lats lons headings elats elons,
     read_csv csv_file = inr df /\
     plot_with_custom_settings read_csv hist_raises csv_file line_length
       point_size line_color point_color =
     (Subplots 1 2 ::
      Scatter 0 lons lats point_color point_size ::
      map (fun i => Plot 0 [nth i lons 0%R; nth i elons 0%R]
                           [nth i lats 0%R; nth i elats 0%R] line_color)
          (seq 0 (length lats)) ++
      Plot 0 lons lats "gray" ::
      Hist 1 headings 36 None ::
      match hist_raises headings 36 None with
      | Some _ => []
      | None => [Show]
      end,
      match hist_raises headings 36 None with
      | Some e => inl e
      | None => inr (Some df)
      end)).
Proof.
  destruct (read_csv csv_file) as [e|df] eqn:Hload.
  { left. exists e. split; [|left; reflexivity].
    unfold plot_with_custom_settings. rewrite Hload. reflexivity. }
  pose proof (resolved_permissive_In (Pd.columns df) Latitude) as R1.
  pose proof (resolved_permissive_In (Pd.columns df) Longitude) as R2.
  pose proof (resolved_permissive_In (Pd.columns df) Heading) as R3.
  simpl in R1, R2, R3.
  destruct (lat_col (resolve_permissive (Pd.columns df))) as [a|] eqn:Ea.
  2:{ left. exists (KeyError None). split.
      - unfold plot_with_custom_settings.
        rewrite Hload, bind_lift_value. cbv zeta. rewrite Ea. reflexivity.
      - right. split; [reflexivity|]. exists df, Latitude.
        split; [reflexivity | exact Ea]. }
  destruct (getitem_In df a (R1 a eq_refl)) as [lats Ha].
  destruct (lon_col (resolve_permissive (Pd.columns df))) as [b|] eqn:Eb.
  2:{ left. exists (KeyError None). split.
      - unfold plot_with_custom_settings.
        rewrite Hload, bind_lift_value. cbv zeta.
        rewrite Ea, Ha, bind_lift_value, Eb. reflexivity.
      - right. split; [reflexivity|]. exists df, Longitude.
        split; [reflexivity | exact Eb]. }
  destruct (getitem_In df b (R2 b eq_refl)) as [lons Hb].
  destruct (heading_col (resolve_permissive (Pd.columns df))) as [c|] eqn:Ec.
  2:{ left. exists (KeyError None). split.
      - unfold plot_with_custom_settings.
        rewrite Hload, bind_lift_value. cbv zeta.
        rewrite Ea, Ha, bind_lift_value, Eb, Hb, bind_lift_value, Ec.
        reflexivity.
      - right. split; [reflexivity|]. exists df, Heading.
        split; [reflexivity | exact Ec]. }
  destruct (getitem_In df c (R3 c eq_refl)) as [headings Hc].
  pose proof (getitem_length _ _ _ Ha) as La.
  pose proof (getitem_length _ _ _ Hb) as Lb.
  pose proof (getitem_length _ _ _ Hc) as Lc.
  destruct (end_points_indexed lats lons headings line_length) as
      [el [eo [He [Ho [Le [Lo _]]]]]]; try congruence.
  right. exists df, lats, lons, headings, el, eo.
  split; [reflexivity|].
  apply (plot_with_custom_settings_run read_csv hist_raises csv_file
           line_length point_size line_color point_color df
           lats lons headings el eo);
    try assumption; try congruence.
Qed.
End OutcomesMore.

(** X13: a table that loads and whose columns resolve but that has no
    rows makes [load_and_plot_gps_track] raise IndexError (the index -1
    of line 56), after the three load messages and before any figure
    call. *)
Theorem empty_table_raises_index_error
    (read_csv : string -> exn + Pd.DataFrame) (csv_file : string)
    (line_length : R) (df : Pd.DataFrame) :
  read_csv csv_file = inr df ->
  Resolver.all_resolved (Resolver.resolve_strict (Pd.columns df)) = true ->
  Pd.rows df = [] ->
  TrackViz.load_and_plot_gps_track read_csv csv_file line_length =
  ([Print (Loaded 0); Print (Columns (Pd.columns df)); Print (Preview [])],
   inl IndexError).
Proof.
  intros Hload Hall Hrows.
  rewrite (load_and_plot_gps_track_no_rows_run read_csv _ _ df Hload Hall Hrows).
  unfold Pd.len, Pd.head. rewrite Hrows. reflexivity.
Qed.

Lemma empty_table_raises_index_error_witness :
  TrackViz.load_and_plot_gps_track
    (fun _ => inr Examples.empty_table)
    "empty.csv" 1 =
  ([Print (Loaded 0); Print (Columns ["latitude"; "longitude"; "course"]);
    Print (Preview [])],
   inl IndexError).
Proof.
  apply (empty_table_raises_index_error
           (fun _ => inr Examples.empty_table)
           "empty.csv" 1
           Examples.empty_table);
    reflexivity.
Defined.

(** X14: [plot_with_custom_settings] never prints and never returns
    None, and an error of [pd.read_csv] leaves it unchanged, with no
    figure call made. *)
Theorem plot_with_custom_settings_is_silent
    (read_csv : string -> exn + Pd.DataFrame)
    (hist_raises : list R -> nat -> option (R * R) -> option exn)
    (csv_file : string)
    (line_length point_size : R) (line_color point_color : string) :
  (forall m,
     ~ In (Print m)
         (fst (TrackViz.plot_with_custom_settings read_csv hist_raises
                 csv_file line_length point_size line_color point_color))) /\
  snd (TrackViz.plot_with_custom_settings read_csv hist_raises csv_file
         line_length point_size line_color point_color) <> inr None /\
  (forall e,
     read_csv csv_file = inl e ->
     TrackViz.plot_with_custom_settings read_csv hist_raises csv_file
       line_length point_size line_color point_color = ([], inl e)).
Proof.
  destruct (plot_with_custom_settings_cases read_csv hist_raises csv_file
              line_length point_size line_color point_color)
    as [[e [Hrun Hwhy]] | [df [lats [lons [hs [el [eo [Hload Hrun]]]]]]]].
  - rewrite Hrun. repeat split.
    + intros m [].
    + discriminate.
    + intros e' He'. destruct Hwhy as [Hl | [_ [df [c [Hl _]]]]]; congruence.
  - rewrite Hrun. repeat split.
    + intros m Hin. simpl in Hin.
      destruct Hin as [H|[H|H]]; try discriminate.
      apply in_app_or in H. destruct H as [H|H].
      * apply in_map_iff in H. destruct H as [i [H _]]. discriminate.
      * simpl in H. destruct H as [H|[H|H]]; try discriminate.
        destruct (hist_raises hs 36 None); simpl in H;
          [destruct H | destruct H as [H|[]]; discriminate].
    + simpl. destruct (hist_raises hs 36 None); discriminate.
    + intros e' He'. congruence.
Qed.

Lemma plot_with_custom_settings_is_silent_witness :
  TrackViz.plot_with_custom_settings (fun _ => inl (LoadError "No such file"))
    (fun _ _ _ => None) "missing.csv" 1 20 "blue" "red" =
  ([], inl (LoadError "No such file")).
Proof.
  apply (proj2 (proj2 (plot_with_custom_settings_is_silent
                  (fun _ => inl (LoadError "No such file"))
                  (fun _ _ _ => None) "missing.csv" 1 20 "blue" "red"))).
  reflexivity.
Defined.

(** X15: the complete run of [plot_with_custom_settings] on a table with
    at least one row whose three columns are read: the two panels, the
    scatter in the caller's colour and size, one segment per row drawn
    with that row's own heading in the caller's line colour, the gray
    track and the histogram call on the recorded headings; then the
    figure is shown and the table returned if that call returns, and its
    exception leaves the function otherwise. *)
Theorem plot_with_custom_settings_full_run
    (read_csv : string -> exn + Pd.DataFrame)
    (hist_raises : list R -> nat -> option (R * R) -> option exn)
    (csv_file : string)
    (line_length point_size : R) (line_color point_color : string)
    (df : Pd.DataFrame) (lats lons headings : list R) :
  read_csv csv_file = inr df ->
  Pd.rows df <> [] ->
  Pd.getitem df (Resolver.lat_col (Resolver.resolve_permissive (Pd.columns df)))
    = inr lats ->
  Pd.getitem df (Resolver.lon_col (Resolver.resolve_permissive (Pd.columns df)))
    = inr lons ->
  Pd.getitem df (Resolver.heading_col (Resolver.resolve_permissive (Pd.columns df)))
    = inr headings ->
  TrackViz.plot_with_custom_settings read_csv hist_raises csv_file
    line_length point_size line_color point_color =
  (Subplots 1 2 ::
   Scatter 0 lons lats point_color point_size ::
   map (fun i => Examples.segment 0 line_color (nth i lats 0%R)
                   (nth i lons 0%R) line_length (nth i headings 0%R))
       (seq 0 (Pd.len df)) ++
   Plot 0 lons lats "gray" ::
   Hist 1 headings 36 None ::
   match hist_raises headings 36 None with
   | Some _ => []
   | None => [Show]
   end,
   match hist_raises headings 36 None with
   | Some e => inl e
   | None => inr (Some df)
   end).
Proof.
  intros Hload Hrows Ha Hb Hc.
  pose proof (getitem_length _ _ _ Ha) as La.
  pose proof (getitem_length _ _ _ Hb) as Lb.
  pose proof (getitem_length _ _ _ Hc) as Lc.
  destruct (end_points_indexed lats lons headings line_length) as
      [el [eo [He [Ho [Le [Lo _]]]]]]; try congruence.
  pose proof (lines_are_segments 0 line_color lats lons headings el eo
                line_length) as Hseg.
  rewrite Lc in Hseg. rewrite <- Hseg by (assumption || congruence).
  rewrite <- La.
  apply (plot_with_custom_settings_run read_csv hist_raises csv_file
           line_length point_size line_color point_color df
           lats lons headings el eo);
    try assumption; try congruence.
Qed.

Lemma plot_with_custom_settings_full_run_witness :
  TrackViz.plot_with_custom_settings (fun _ => inr Examples.permissive_table)
    (fun _ _ _ => None) "track.csv" 1 20 "blue" "red" =
  (Subplots 1 2 ::
   Scatter 0 [0; 1]%R [0; 1]%R "red" 20 ::
   map (fun i => Examples.segment 0 "blue" (nth i [0; 1]%R 0%R)
                   (nth i [0; 1]%R 0%R) 1 (nth i [0; 90]%R 0%R))
       (seq 0 2) ++
   Plot 0 [0; 1]%R [0; 1]%R "gray" ::
   Hist 1 [0; 90]%R 36 None :: [Show],
   inr (Some Examples.permissive_table)).
Proof.
  apply (plot_with_custom_settings_full_run
           (fun _ => inr Examples.permissive_table) (fun _ _ _ => None)
           "track.csv" 1 20 "blue" "red" Examples.permissive_table
           [0; 1]%R [0; 1]%R [0; 90]%R);
    [reflexivity | discriminate | reflexivity | reflexivity | reflexivity].
Defined.

(** X16: the complete run of [load_and_plot_gps_track] on a table with
    resolved columns and at least one row: the three load messages, the
    figure with one segment per row drawn with the shifted heading, the
    track, then the statistics, whose heading range is taken from the
    headings as recorded (not shifted), and the table is returned. *)
Theorem load_and_plot_gps_track_full_run
    (read_csv : string -> exn + Pd.DataFrame) (csv_file : string)
    (line_length : R) (df : Pd.DataFrame) :
  read_csv csv_file = inr df ->
  Resolver.all_resolved (Resolver.resolve_strict (Pd.columns df)) = true ->
  Pd.rows df <> [] ->
  exists lats lons headings shifted lat_lo lat_hi lon_lo lon_hi h_lo h_hi,
    Pd.getitem df (Resolver.lat_col (Resolver.resolve_strict (Pd.columns df)))
      = inr lats /\
    Pd.getitem df (Resolver.lon_col (Resolver.resolve_strict (Pd.columns df)))
      = inr lons /\
    Pd.getitem df (Resolver.heading_col (Resolver.resolve_strict (Pd.columns df)))
      = inr headings /\
    TrackViz.shifted_headings headings = inr shifted /\
    Np.min lats = inr lat_lo /\ Np.max lats = inr lat_hi /\
    Np.min lons = inr lon_lo /\ Np.max lons = inr lon_hi /\
    Np.min headings = inr h_lo /\ Np.max headings = inr h_hi /\
    TrackViz.load_and_plot_gps_track read_csv csv_file line_length =
    (Print (Loaded (Pd.len df)) ::
     Print (Columns (Pd.columns df)) ::
     Print (Preview (Pd.head df)) ::
     Subplots 1 1 ::
     Scatter 0 lons lats "red" (1 / 10)%R ::
     map (fun i => Examples.segment 0 "blue" (nth i lats 0%R) (nth i lons 0%R)
                     line_length (nth i shifted 0%R))
         (seq 0 (Pd.len df)) ++
     [Plot 0 lons lats "gray";
      Print (Text (String "010"%char "Track Statistics:"));
      Print (Range "Latitude" lat_lo lat_hi);
      Print (Range "Longitude" lon_lo lon_hi);
      Print (Range "Heading" h_lo h_hi);
      Show],
     inr (Some df)).
Proof.
  intros Hload Hall Hrows.
  destruct (strict_arrays df Hall) as
      [lats [lons [headings [Ha [Hb [Hc [La [Lb Lc]]]]]]]].
  assert (Hn : Pd.len df <> 0).
  { unfold Pd.len. destruct (Pd.rows df); [contradiction|discriminate]. }
  destruct (shifted_headings_indexed headings) as [shifted [Hs [Ls _]]].
  { intros ->. simpl in Lc. congruence. }
  destruct (end_points_indexed lats lons shifted line_length) as
      [elats [elons [He [Ho [Le [Lo _]]]]]]; try congruence.
  pose proof (lines_are_segments 0 "blue" lats lons shifted elats elons
                line_length) as Hseg.
  rewrite Ls, Lc in Hseg.
  destruct lats as [|x1 lats']; [simpl in La; congruence|].
  destruct lons as [|x2 lons']; [simpl in Lb; congruence|].
  destruct headings as [|x3 headings']; [simpl in Lc; congruence|].
  exists (x1 :: lats'), (x2 :: lons'), (x3 :: headings'), shifted.
  do 6 eexists.
  repeat (split; [first [eassumption | reflexivity]|]).
  rewrite <- Hseg by (assumption || congruence).
  replace (seq 0 (Pd.len df)) with (seq 0 (length (x1 :: lats')))
    by (f_equal; exact La).
  apply (load_and_plot_gps_track_run read_csv csv_file line_length df
           (x1 :: lats') (x2 :: lons') (x3 :: headings') shifted elats elons);
    try assumption; try congruence; reflexivity.
Qed.

Lemma load_and_plot_gps_track_full_run_witness :
  exists lats lons headings shifted lat_lo lat_hi lon_lo lon_hi h_lo h_hi,
    Pd.getitem Examples.strict_table
      (Resolver.lat_col (Resolver.resolve_strict (Pd.columns Examples.strict_table)))
      = inr lats /\
    Pd.getitem Examples.strict_table
      (Resolver.lon_col (Resolver.resolve_strict (Pd.columns Examples.strict_table)))
      = inr lons /\
    Pd.getitem Examples.strict_table
      (Resolver.heading_col (Resolver.resolve_strict (Pd.columns Examples.strict_table)))
      = inr headings /\
    TrackViz.shifted_headings headings = inr shifted /\
    Np.min lats = inr lat_lo /\ Np.max lats = inr lat_hi /\
    Np.min lons = inr lon_lo /\ Np.max lons = inr lon_hi /\
    Np.min headings = inr h_lo /\ Np.max headings = inr h_hi /\
    TrackViz.load_and_plot_gps_track (fun _ => inr Examples.strict_table)
      "track.csv" 1 =
    (Print (Loaded (Pd.len Examples.strict_table)) ::
     Print (Columns (Pd.columns Examples.strict_table)) ::
     Print (Preview (Pd.head Examples.strict_table)) ::
     Subplots 1 1 ::
     Scatter 0 lons lats "red" (1 / 10)%R ::
     map (fun i => Examples.segment 0 "blue" (nth i lats 0%R) (nth i lons 0%R)
                     1 (nth i shifted 0%R))
         (seq 0 (Pd.len Examples.strict_table)) ++
     [Plot 0 lons lats "gray";
      Print (Text (String "010"%char "Track Statistics:"));
      Print (Range "Latitude" lat_lo lat_hi);
      Print (Range "Longitude" lon_lo lon_hi);
      Print (Range "Heading" h_lo h_hi);
      Show],
     inr (Some Examples.strict_table)).
Proof.
  apply (load_and_plot_gps_track_full_run (fun _ => inr Examples.strict_table)
           "track.csv" 1 Examples.strict_table);
    [reflexivity | reflexivity | discriminate].
Defined.

(** ** The script entry *)

Section ScriptFacts.
Import Script.
Variable read_csv : string -> exn + Pd.DataFrame.

Lemma main_after_return (t : list event) (r : option Pd.DataFrame) :
  TrackViz.load_and_plot_gps_track read_csv csv_filename (5 / 1000000)%R =
    (t, inr r) ->
  main read_csv =
  (Print (Text "GPS Track Visualization") ::
   Print (Text "==============================") :: t ++ usage,
   inr tt).
Proof.
  intros H. unfold main. do 2 (py_step; cbv beta).
  rewrite H. py_step. cbv beta.
  unfold usage. do 6 (py_step; cbv beta). reflexivity.
Qed.

Lemma main_after_raise (t : list event) (e : exn) :
  TrackViz.load_and_plot_gps_track read_csv csv_filename (5 / 1000000)%R =
    (t, inl e) ->
  main read_csv =
  (Print (Text "GPS Track Visualization") ::
   Print (Text "==============================") :: t,
   inl e).
Proof.
  intros H. unfold main. do 2 (py_step; cbv beta).
  rewrite H. reflexivity.
Qed.
End ScriptFacts.

(** X17: run as a script, the program prints its title and a bar of 30
    equals signs, calls [load_and_plot_gps_track] on
    "FSGP_2024_Pregenerated.csv" with line_length 0.000005 and then
    prints the seven usage lines: after a load failure, after a
    resolution failure and after a successful run alike.  A loaded,
    resolved table without rows ends the script with IndexError before
    the usage lines. *)
Theorem script_run
    (read_csv : string -> exn + Pd.DataFrame) :
  (forall e,
     read_csv Script.csv_filename = inl e ->
     Script.main read_csv =
     (Print (Text "GPS Track Visualization") ::
      Print (Text "==============================") ::
      Print (LoadFailed e) :: Script.usage,
      inr tt)) /\
  (forall df,
     read_csv Script.csv_filename = inr df ->
     Resolver.all_resolved (Resolver.resolve_strict (Pd.columns df)) = false ->
     Script.main read_csv =
     (Print (Text "GPS Track Visualization") ::
      Print (Text "==============================") ::
      Print (Loaded (Pd.len df)) ::
      Print (Columns (Pd.columns df)) ::
      Print (Preview (Pd.head df)) ::
      Print (Text "Error: Could not find required columns (latitude, longitude, course)") ::
      Print (Available (Pd.columns df)) :: Script.usage,
      inr tt)) /\
  (forall df,
     read_csv Script.csv_filename = inr df ->
     Resolver.all_resolved (Resolver.resolve_strict (Pd.columns df)) = true ->
     Pd.rows df <> [] ->
     exists t,
       Script.main read_csv =
       (Print (Text "GPS Track Visualization") ::
        Print (Text "==============================") :: t ++ Script.usage,
        inr tt) /\
       TrackViz.load_and_plot_gps_track read_csv Script.csv_filename
         (5 / 1000000)%R = (t, inr (Some df))) /\
  (forall df,
     read_csv Script.csv_filename = inr df ->
     Resolver.all_resolved (Resolver.resolve_strict (Pd.columns df)) = true ->
     Pd.rows df = [] ->
     Script.main read_csv =
     ([Print (Text "GPS Track Visualization");
       Print (Text "==============================");
       Print (Loaded (Pd.len df));
       Print (Columns (Pd.columns df));
       Print (Preview (Pd.head df))],
      inl IndexError)).
Proof.
  split; [|split; [|split]].
  - intros e H.
    apply (main_after_return read_csv [Print (LoadFailed e)] None).
    apply load_and_plot_gps_track_load_error_run. exact H.
  - intros df H Hall.
    apply (main_after_return read_csv
             [Print (Loaded (Pd.len df)); Print (Columns (Pd.columns df));
              Print (Preview (Pd.head df));
              Print (Text "Error: Could not find required columns (latitude, longitude, course)");
              Print (Available (Pd.columns df))] None).
    apply load_and_plot_gps_track_unresolved_run; assumption.
  - intros df H Hall Hrows.
    destruct (load_and_plot_gps_track_success read_csv Script.csv_filename
                (5 / 1000000)%R df H Hall Hrows)
      as [lats [lons [hs [sh [el [eo [post [_ [_ [_ [_ [_ [_ [_ [_ [_ Hrun]]]]]]]]]]]]]]]].
    eexists. split; [|exact Hrun].
    apply (main_after_return read_csv _ (Some df)). exact Hrun.
  - intros df H Hall Hrows.
    apply (main_after_raise read_csv
             [Print (Loaded (Pd.len df)); Print (Columns (Pd.columns df));
              Print (Preview (Pd.head df))] IndexError).
    apply load_and_plot_gps_track_no_rows_run; assumption.
Qed.

Lemma script_run_witness :
  Script.main (fun _ => inl (LoadError "No such file")) =
  (Print (Text "GPS Track Visualization") ::
   Print (Text "==============================") ::
   Print (LoadFailed (LoadError "No such file")) :: Script.usage,
   inr tt) /\
  snd (Script.main (fun _ => inr Examples.unrecognised_table)) = inr tt /\
  (exists t,
     Script.main (fun _ => inr Examples.strict_table) =
     (Print (Text "GPS Track Visualization") ::
      Print (Text "==============================") :: t ++ Script.usage,
      inr tt) /\
     TrackViz.load_and_plot_gps_track (fun _ => inr Examples.strict_table)
       Script.csv_filename (5 / 1000000)%R =
     (t, inr (Some Examples.strict_table))) /\
  snd (Script.main
         (fun _ => inr Examples.empty_table)) = inl IndexError.
Proof.
  split; [|split; [|split]].
  - apply (proj1 (script_run
                    (fun _ => inl (LoadError "No such file")))).
    reflexivity.
  - rewrite (proj1 (proj2 (script_run
                    (fun _ => inr Examples.unrecognised_table)))
               Examples.unrecognised_table eq_refl eq_refl).
    reflexivity.
  - apply (proj1 (proj2 (proj2 (script_run
                    (fun _ => inr Examples.strict_table))))
             Examples.strict_table eq_refl eq_refl).
    discriminate.
  - rewrite (proj2 (proj2 (proj2 (script_run
                    (fun _ => inr Examples.empty_table))))
               Examples.empty_table
               eq_refl eq_refl eq_refl).
    reflexivity.
Defined.

(** ** When the order of the columns does not matter *)

Section UniqueMatches.
Import Resolver.

Lemma find_unique (p : string -> bool) (l l' : list string) :
  (forall x, In x l <-> In x l') ->
  (forall x y, In x l -> In y l -> p x = true -> p y = true -> x = y) ->
  find p l = find p l'.
Proof.
  intros Hsame Huniq.
  destruct (find p l) as [x|] eqn:E.
  - apply find_some in E. destruct E as [Hin Hp].
    destruct (find p l') as [y|] eqn:E'.
    + apply find_some in E'. destruct E' as [Hin' Hp'].
      f_equal. apply Huniq; try assumption. apply Hsame. exact Hin'.
    + rewrite (find_none _ _ E' x (proj1 (Hsame x) Hin)) in Hp. discriminate.
  - symmetry. apply find_all_false. intros x Hx.
    apply (find_none _ _ E). apply Hsame. exact Hx.
Qed.

Lemma last_match_unique (p : string -> bool) (l l' : list string) :
  (forall x, In x l <-> In x l') ->
  (forall x y, In x l -> In y l -> p x = true -> p y = true -> x = y) ->
  last_match p l = last_match p l' /\ last_match p l = first_match p l.
Proof.
  intros Hsame Huniq. unfold last_match, first_match.
  assert (Hrev : forall x y, In x (rev l) -> In y (rev l) ->
                             p x = true -> p y = true -> x = y).
  { intros x y Hx Hy. apply Huniq; apply in_rev; assumption. }
  split; apply find_unique; try exact Hrev.
  - intros x. rewrite <- !in_rev. apply Hsame.
  - intros x. rewrite <- in_rev. reflexivity.
Qed.
End UniqueMatches.

(** X18: when no category is matched by two different columns, the
    resolved mapping does not depend on the order of the columns, and
    each category resolves to its first (and only) match, in both
    variants. *)
Theorem unique_matches_make_order_irrelevant (columns columns' : list string) :
  (forall x, In x columns <-> In x columns') ->
  ((forall c x y, In x columns -> In y columns ->
      Resolver.matches Resolver.strict_category c x = true ->
      Resolver.matches Resolver.strict_category c y = true -> x = y) ->
   Resolver.resolve_strict columns = Resolver.resolve_strict columns' /\
   forall c, Resolver.get (Resolver.resolve_strict columns) c =
             Resolver.first_match
               (Resolver.matches Resolver.strict_category c) columns) /\
  ((forall c x y, In x columns -> In y columns ->
      Resolver.matches Resolver.permissive_category c x = true ->
      Resolver.matches Resolver.permissive_category c y = true -> x = y) ->
   Resolver.resolve_permissive columns = Resolver.resolve_permissive columns' /\
   forall c, Resolver.get (Resolver.resolve_permissive columns) c =
             Resolver.first_match
               (Resolver.matches Resolver.permissive_category c) columns).
Proof.
  intros Hsame. split; intros Huniq.
  - split.
    + apply mapping_ext. intros c. rewrite !resolve_strict_get.
      apply last_match_unique; [exact Hsame | apply Huniq].
    + intros c. rewrite resolve_strict_get.
      apply (last_match_unique _ columns columns'); [exact Hsame | apply Huniq].
  - split.
    + apply mapping_ext. intros c. rewrite !resolve_permissive_get.
      apply last_match_unique; [exact Hsame | apply Huniq].
    + intros c. rewrite resolve_permissive_get.
      apply (last_match_unique _ columns columns'); [exact Hsame | apply Huniq].
Qed.

Lemma unique_matches_make_order_irrelevant_witness :
  Resolver.resolve_strict ["latitude"; "course"] =
    Resolver.resolve_strict ["course"; "latitude"] /\
  Resolver.resolve_permissive ["lat"; "heading"] =
    Resolver.resolve_permissive ["heading"; "lat"].
Proof.
  split.
  - apply (proj1 (unique_matches_make_order_irrelevant
                    ["latitude"; "course"] ["course"; "latitude"]
                    ltac:(intros x; simpl; tauto))).
    intros c x y [<-|[<-|[]]] [<-|[<-|[]]] Hx Hy;
      try reflexivity; destruct c; discriminate.
  - apply (proj2 (unique_matches_make_order_irrelevant
                    ["lat"; "heading"] ["heading"; "lat"]
                    ltac:(intros x; simpl; tauto))).
    intros c x y [<-|[<-|[]]] [<-|[<-|[]]] Hx Hy;
      try reflexivity; destruct c; discriminate.
Defined.
